(** * Virtual try-on chatbot: rate limiter, session flow and job dispatcher

    A shallow embedding of [app.py].  The Flask views are state-passing
    programs in a small exception monad over the process' stores: the Redis
    key space, the SQL tables (durable rows plus the SQLAlchemy unit of work
    of the current request), the local file system and the Twilio outbox.
    The external services (Redis, Twilio, Gradio, OpenCV) are modelled at
    the interface the code calls. *)

From stdpp Require Import gmap strings list fin_maps.
From Stdlib Require Import ZArith Lia Ascii.

Local Open Scope string_scope.
Local Open Scope Z_scope.

(** ** Configuration ([class Config]) *)

Module Config.
Definition MAX_DAILY_REQUESTS : Z := 100.
(** [timedelta(days=1)], in seconds, as redis-py hands it to SETEX. *)
Definition RATE_LIMIT_DURATION : Z := 86400.
Definition TWILIO_WHATSAPP_NUMBER : string := "whatsapp:+14155238886".
End Config.

(** ** The Redis key space

    Time is the server clock in whole seconds.  A key holds an integer
    (Redis stores the decimal string; the program only ever writes integers
    under its keys) and an optional deadline.  A key whose deadline has been
    reached is invisible to every command. *)

Module Redis.

Record entry := Entry { value : Z; deadline : option Z }.

Definition live (now : Z) (e : entry) : bool :=
  match deadline e with
  | None => true
  | Some d => now <? d
  end.

Definition lookup_live (now : Z) (k : string) (r : gmap string entry)
  : option entry :=
  match r !! k with
  | Some e => if live now e then Some e else None
  | None => None
  end.

(** GET: the value, or nil for a missing or expired key. *)
Definition get (now : Z) (k : string) (r : gmap string entry) : option Z :=
  value <$> lookup_live now k r.

(** TTL: remaining seconds, -1 without deadline, -2 for a missing key. *)
Definition ttl (now : Z) (k : string) (r : gmap string entry) : Z :=
  match lookup_live now k r with
  | Some e => match deadline e with Some d => d - now | None => -1 end
  | None => -2
  end.

(** The two write commands the program queues on a pipeline. *)
Inductive command :=
| SETEX (k : string) (seconds : Z) (v : Z)
| INCR (k : string).

(** SETEX overwrites value and deadline.  INCR keeps the deadline of a
    live key; on a missing or expired key it starts from 0 and leaves the
    key without deadline. *)
Definition exec (now : Z) (c : command) (r : gmap string entry)
  : gmap string entry :=
  match c with
  | SETEX k seconds v => <[k := Entry v (Some (now + seconds))]> r
  | INCR k =>
      match lookup_live now k r with
      | Some e => <[k := Entry (value e + 1) (deadline e)]> r
      | None => <[k := Entry 1 None]> r
      end
  end.

(** MULTI/EXEC: the queued commands run back to back. *)
Definition exec_all (now : Z) (cs : list command) (r : gmap string entry)
  : gmap string entry :=
  foldl (fun acc c => exec now c acc) r cs.

End Redis.

(** ** SQL rows ([class User], [class Session])

    A column is [None] while the Python attribute is unset or NULL.  The
    primary key and the column defaults ([default=0], [default=utcnow]) are
    filled in when the INSERT is emitted at flush, not by the constructor. *)

Record User := mkUser {
  u_id : option Z;
  phone_number : string;
  u_created_at : option Z;
  last_request : option Z;
  request_count : option Z
}.

Record Session := mkSession {
  s_id : option Z;
  user_id : option Z;
  person_image : option string;
  garment_image : option string;
  result_image : option string;
  s_created_at : option Z;
  completed_at : option Z
}.

#[global] Instance User_eq_dec : EqDecision User.
Proof. solve_decision. Defined.

#[global] Instance Session_eq_dec : EqDecision Session.
Proof. solve_decision. Defined.

Record DB := mkDB { users : list User; sessions : list Session }.

(** ** The process state *)

(** What survives a request. *)
Record World := mkWorld {
  redis : gmap string Redis.entry;
  db : DB;
  files : gmap string string;
  outbox : list (string * string)
}.

(** [db.session] during a request: the rows as this request's transaction
    sees them (uncommitted attribute changes included) and the objects
    added but not yet inserted. *)
Record Uow := mkUow {
  view : DB;
  new_users : list User;
  new_sessions : list Session
}.

(** A request in flight. *)
Record Ctx := mkCtx { world : World; uow : Uow }.

Definition set_redis (r : gmap string Redis.entry) (c : Ctx) : Ctx :=
  let w := world c in
  mkCtx (mkWorld r (db w) (files w) (outbox w)) (uow c).

Definition set_db (d : DB) (c : Ctx) : Ctx :=
  let w := world c in
  mkCtx (mkWorld (redis w) d (files w) (outbox w)) (uow c).

Definition set_files (f : gmap string string) (c : Ctx) : Ctx :=
  let w := world c in
  mkCtx (mkWorld (redis w) (db w) f (outbox w)) (uow c).

Definition set_outbox (o : list (string * string)) (c : Ctx) : Ctx :=
  let w := world c in
  mkCtx (mkWorld (redis w) (db w) (files w) o) (uow c).

Definition set_uow (u : Uow) (c : Ctx) : Ctx := mkCtx (world c) u.

(** ** What the environment decides for one request *)

(** The calls that leave the process and can raise. *)
Inductive Op :=
| OpRedisGet          (* redis_client.get *)
| OpRedisExecute      (* pipe.execute *)
| OpRedisTtl          (* redis_client.ttl *)
| OpUserQuery         (* User.query ... first(), in rate_limit and check_limits *)
| OpUserCommit        (* db.session.commit() of rate_limit *)
| OpHandlerUserQuery  (* User.query ... first(), in webhook *)
| OpSessionQuery      (* Session.query ... first() *)
| OpSessionCommit     (* db.session.commit() of webhook *)
| OpSendMedia.        (* twilio_client.messages.create *)

#[global] Instance Op_eq_dec : EqDecision Op.
Proof. solve_decision. Defined.

Inductive GradioOutcome :=
| GradioError
| GradioResult (paths : list string) (downloads : list (string * string)).

Record Env := mkEnv {
  now : Z;                                  (* datetime.utcnow(), Redis clock *)
  faults : Op -> bool;                      (* which calls raise *)
  NGROK_URL : option string;                (* os.getenv("NGROK_URL") *)
  fetch_media : string -> option string;    (* Twilio media fetch + HTTP GET, 200 *)
  gradio_predict : string -> string -> GradioOutcome;
  cv2_imread : string -> option string;     (* decoded image, None if unreadable *)
  cv2_encode_png : string -> string
}.

(** ** Exceptions and the request monad *)

Inductive Exn :=
| RedisConnectionError
| OperationalError
| TypeError
| AttributeError
| TwilioRestException.

Inductive Res (A : Type) :=
| Ok (a : A) (c : Ctx)
| Raise (e : Exn) (c : Ctx).
Arguments Ok {A} a c.
Arguments Raise {A} e c.

Definition M (A : Type) : Type := Ctx -> Res A.

Definition ret {A} (a : A) : M A := fun c => Ok a c.
Definition raise {A} (e : Exn) : M A := fun c => Raise e c.
Definition bind {A B} (m : M A) (k : A -> M B) : M B :=
  fun c => match m c with
           | Ok a c' => k a c'
           | Raise e c' => Raise e c'
           end.
(** [try: m  except Exception: h] *)
Definition try_except {A} (m : M A) (h : Exn -> M A) : M A :=
  fun c => match m c with
           | Ok a c' => Ok a c'
           | Raise e c' => h e c'
           end.
Definition gets {A} (f : Ctx -> A) : M A := fun c => Ok (f c) c.
Definition modify (f : Ctx -> Ctx) : M unit := fun c => Ok tt (f c).
(** An external call: raises [e] when the environment says so. *)
Definition calling (env : Env) (op : Op) (e : Exn) : M unit :=
  fun c => if faults env op then Raise e c else Ok tt c.

Notation "'do' x <- m ; k" := (bind m (fun x => k))
  (at level 10, x name, m at level 100, k at level 200).
Notation "m ;; k" := (bind m (fun _ => k))
  (at level 100, k at level 200, right associativity).

(** Python truthiness of an optional string: [None] and [''] are falsy. *)
Definition truthy (s : option string) : bool :=
  match s with
  | None => false
  | Some s => negb (bool_decide (s = ""))
  end.

(** ** [class RateLimiter] *)

Module RateLimiter.

Definition key (phone_number : string) : string :=
  "rate_limit:" +:+ phone_number.

(** [True] means the caller is over the limit. *)
Definition check_limit (env : Env) (phone_number : string) : M bool :=
  do current_count <-
    (calling env OpRedisGet RedisConnectionError ;;
     gets (fun c => Redis.get (now env) (key phone_number) (redis (world c))));
  let execute (pipe : list Redis.command) : M unit :=
    calling env OpRedisExecute RedisConnectionError ;;
    modify (fun c =>
      set_redis (Redis.exec_all (now env) pipe (redis (world c))) c) in
  match current_count with
  | None =>
      execute [Redis.SETEX (key phone_number) Config.RATE_LIMIT_DURATION 1] ;;
      ret false
  | Some n =>
      if Config.MAX_DAILY_REQUESTS <=? n then ret true
      else
        execute [Redis.INCR (key phone_number)] ;;
        ret false
  end.

End RateLimiter.

(** ** [db.session]: the unit of work over the tables *)

Module Sql.

Definition max_id {A} (id : A -> option Z) (l : list A) : Z :=
  foldr (fun r m => match id r with Some i => Z.max i m | None => m end) 0 l.

(** INSERT of the pending objects, in order: next rowid, then the column
    defaults for the columns left unset. *)
Fixpoint insert_users (now next : Z) (pending : list User) : list User :=
  match pending with
  | [] => []
  | u :: rest =>
      mkUser (Some next) (phone_number u)
        (Some (default now (u_created_at u)))
        (last_request u)
        (Some (default 0 (request_count u)))
      :: insert_users now (next + 1) rest
  end.

Fixpoint insert_sessions (now next : Z) (pending : list Session)
  : list Session :=
  match pending with
  | [] => []
  | s :: rest =>
      mkSession (Some next) (user_id s) (person_image s)
        (garment_image s) (result_image s)
        (Some (default now (s_created_at s))) (completed_at s)
      :: insert_sessions now (next + 1) rest
  end.

Definition flush (now : Z) (u : Uow) : DB :=
  let d := view u in
  mkDB (users d ++ insert_users now (1 + max_id u_id (users d)) (new_users u))
       (sessions d ++
          insert_sessions now (1 + max_id s_id (sessions d)) (new_sessions u)).

(** [db.session.add(obj)] *)
Definition add_user (u : User) : M unit :=
  modify (fun c =>
    let w := uow c in
    set_uow (mkUow (view w) (new_users w ++ [u]) (new_sessions w)) c).

Definition add_session (s : Session) : M unit :=
  modify (fun c =>
    let w := uow c in
    set_uow (mkUow (view w) (new_users w) (new_sessions w ++ [s])) c).

Definition replace {A} `{EqDecision A} (old new : A) (l : list A) : list A :=
  map (fun r => if bool_decide (r = old) then new else r) l.

(** [obj.attr = v] on an object the session tracks: the local variable
    and the session's entry are the same object, so both change. *)
Definition setattr_user (u : User) (f : User -> User) : M User :=
  modify (fun c =>
    let w := uow c in
    set_uow (mkUow (mkDB (replace u (f u) (users (view w))) (sessions (view w)))
                   (replace u (f u) (new_users w))
                   (new_sessions w)) c) ;;
  ret (f u).

Definition setattr_session (s : Session) (f : Session -> Session) : M Session :=
  modify (fun c =>
    let w := uow c in
    set_uow (mkUow (mkDB (users (view w)) (replace s (f s) (sessions (view w))))
                   (new_users w)
                   (replace s (f s) (new_sessions w))) c) ;;
  ret (f s).

(** [db.session.commit()]: flush, then make the view durable. *)
Definition commit (env : Env) (op : Op) : M unit :=
  calling env op OperationalError ;;
  modify (fun c =>
    let d := flush (now env) (uow c) in
    set_uow (mkUow d [] []) (set_db d c)).

(** [db.session.rollback()] *)
Definition rollback : M unit :=
  modify (fun c => set_uow (mkUow (db (world c)) [] []) c).

(** [User.query.filter_by(phone_number=p).first()].  Every query of the
    program runs while the session holds no pending object, so autoflush
    has nothing to emit. *)
Definition user_by_phone (env : Env) (op : Op) (p : option string)
  : M (option User) :=
  calling env op OperationalError ;;
  gets (fun c =>
    List.find (fun u => bool_decide (Some (phone_number u) = p))
              (users (view (uow c)))).

Definition is_active_of (uid : option Z) (s : Session) : bool :=
  bool_decide (user_id s = uid) && bool_decide (completed_at s = None).

(** [Session.query.filter_by(user_id=uid, completed_at=None).first()] *)
Definition active_session_of (env : Env) (uid : option Z)
  : M (option Session) :=
  calling env OpSessionQuery OperationalError ;;
  gets (fun c => List.find (is_active_of uid) (sessions (view (uow c)))).

End Sql.

(** ** HTTP responses *)

Record LimitStatus := mkLimitStatus {
  ls_phone_number : string;
  daily_requests_used : Z;
  daily_requests_remaining : Z;
  reset_in_seconds : Z;
  total_requests_all_time : option Z;
  ls_last_request : option Z
}.

Inductive Body :=
| Twiml (messages : list string)     (* str(MessagingResponse) *)
| Json (j : LimitStatus)
| Unhandled (e : Exn).               (* Flask's answer to an uncaught exception *)

Record Response := mkResponse { status : Z; body : Body }.

Record Form := mkForm { form_From : option string; form_MediaUrl0 : option string }.

(** The context a request starts in: nothing pending in [db.session]. *)
Definition fresh (w : World) : Ctx := mkCtx w (mkUow (db w) [] []).

(** One request: run the view on a fresh unit of work; an uncaught
    exception becomes a 500; at teardown Flask-SQLAlchemy removes the
    session, which drops whatever was not committed. *)
Definition serve (handler : M Response) (w : World) : Response * World :=
  match handler (fresh w) with
  | Ok r c => (r, world c)
  | Raise e c => (mkResponse 500 (Unhandled e), world c)
  end.

(** Attribute updates on rows. *)
Definition with_last_request (t : option Z) (u : User) : User :=
  mkUser (u_id u) (phone_number u) (u_created_at u) t (request_count u).
Definition with_request_count (n : option Z) (u : User) : User :=
  mkUser (u_id u) (phone_number u) (u_created_at u) (last_request u) n.
Definition with_garment_image (m : option string) (s : Session) : Session :=
  mkSession (s_id s) (user_id s) (person_image s) m (result_image s)
            (s_created_at s) (completed_at s).
Definition with_result_image (m : option string) (s : Session) : Session :=
  mkSession (s_id s) (user_id s) (person_image s) (garment_image s) m
            (s_created_at s) (completed_at s).
Definition with_completed_at (t : option Z) (s : Session) : Session :=
  mkSession (s_id s) (user_id s) (person_image s) (garment_image s)
            (result_image s) (s_created_at s) t.

(** [User(phone_number=p)] and [Session(user_id=uid, person_image=m)]: only
    the keyword arguments are set on the new object. *)
Definition new_User (p : string) : User := mkUser None p None None None.
Definition new_Session (uid : option Z) (m : option string) : Session :=
  mkSession None uid m None None None None.

(** [str(x)] inside an f-string, for an optional string. *)
Definition py_str (o : option string) : string := default "None" o.

(** ** [class ImageProcessor] *)

Module ImageProcessor.

Definition write_file (path content : string) : M unit :=
  modify (fun c => set_files (<[path := content]> (files (world c))) c).

Definition result_path : string := "static/result.png".

(** The whole body sits in [try ... except Exception: return None]; the
    environment's [fetch_media] answers the content when the Twilio fetch
    and the HTTP GET both succeed with status 200. *)
Definition download_from_twilio (env : Env) (media_url : option string)
    (filename : string) : M (option string) :=
  match media_url with
  | None => ret None
  | Some url =>
      match fetch_media env url with
      | Some content => write_file filename content ;; ret (Some filename)
      | None => ret None
      end
  end.

Definition process_virtual_tryon (env : Env)
    (person_image_url garment_image_url : option string) : M (option string) :=
  do person_image <- download_from_twilio env person_image_url "person_image.jpg";
  do garment_image <- download_from_twilio env garment_image_url "garment_image.jpg";
  match person_image, garment_image with
  | Some person_file, Some garment_file =>
      do fs <- gets (fun c => files (world c));
      match fs !! person_file, fs !! garment_file with
      | Some person, Some garment =>
          match gradio_predict env person garment with
          | GradioError => ret None
          | GradioResult result downloads =>
              modify (fun c =>
                set_files (foldl (fun f d => <[d.1 := d.2]> f)
                                 (files (world c)) downloads) c) ;;
              match result with
              | [] => ret None
              | try_on_image_path :: _ =>
                  do fs <- gets (fun c => files (world c));
                  match fs !! try_on_image_path with
                  | None => ret None
                  | Some raw =>
                      (* imwrite raises on an image imread could not decode *)
                      match cv2_imread env raw with
                      | None => ret None
                      | Some img =>
                          write_file result_path (cv2_encode_png env img) ;;
                          ret (Some (py_str (NGROK_URL env) +:+ "/static/result.png"))
                      end
                  end
              end
          end
      | _, _ => ret None
      end
  | _, _ => ret None
  end.

End ImageProcessor.

(** ** [class MessageHandler] *)

Module MessageHandler.

Definition send_media_message (env : Env) (to_number : option string)
    (media_url : string) : M unit :=
  calling env OpSendMedia TwilioRestException ;;
  modify (fun c =>
    set_outbox (outbox (world c) ++ [(py_str to_number, media_url)]) c).

Definition create_error_response (message : string) : Body := Twiml [message].

End MessageHandler.

(** ** The [rate_limit] decorator *)

Definition rate_limit (env : Env) (form : Form) (f : M Response) : M Response :=
  let phone_number := form_From form in
  if negb (truthy phone_number) then
    ret (mkResponse 400
           (MessageHandler.create_error_response "Unable to identify phone number."))
  else
    do limited <- RateLimiter.check_limit env (py_str phone_number);
    if limited : bool then
      ret (mkResponse 429
             (MessageHandler.create_error_response
                "You've reached your daily limit of 100 requests. Please try again tomorrow."))
    else
      do found <- Sql.user_by_phone env OpUserQuery phone_number;
      do user <- match found with
                 | Some u => ret u
                 | None =>
                     let u := new_User (py_str phone_number) in
                     Sql.add_user u ;; ret u
                 end;
      do user <- Sql.setattr_user user (with_last_request (Some (now env)));
      (* user.request_count += 1 *)
      match request_count user with
      | None => raise TypeError
      | Some n =>
          do user <- Sql.setattr_user user (with_request_count (Some (n + 1)));
          try_except (Sql.commit env OpUserCommit)
                     (fun _ => Sql.rollback) ;;
          f
      end.

(** ** [/webhook] *)

Definition webhook (env : Env) (form : Form) : M Response :=
  let sender_number := form_From form in
  let media_url := form_MediaUrl0 form in
  if negb (truthy media_url) then
    ret (mkResponse 200
           (MessageHandler.create_error_response
              "We didn't receive an image. Please try sending your image again."))
  else
    do found <- Sql.user_by_phone env OpHandlerUserQuery sender_number;
    match found with
    | None => raise AttributeError     (* user.id on None *)
    | Some user =>
        do active_session <- Sql.active_session_of env (u_id user);
        match active_session with
        | None =>
            Sql.add_session (new_Session (u_id user) media_url) ;;
            Sql.commit env OpSessionCommit ;;
            ret (mkResponse 200
                   (Twiml ["Great! Now please send the image of the garment you want to try on."]))
        | Some active_session =>
            if negb (truthy (garment_image active_session)) then
              do active_session <-
                Sql.setattr_session active_session (with_garment_image media_url);
              do try_on_result <-
                ImageProcessor.process_virtual_tryon env
                  (person_image active_session) media_url;
              if truthy try_on_result then
                do active_session <-
                  Sql.setattr_session active_session (with_result_image try_on_result);
                do active_session <-
                  Sql.setattr_session active_session
                    (with_completed_at (Some (now env)));
                Sql.commit env OpSessionCommit ;;
                MessageHandler.send_media_message env sender_number
                  (py_str try_on_result) ;;
                ret (mkResponse 200 (Twiml ["Here is your virtual try-on result!"]))
              else
                ret (mkResponse 200
                       (Twiml ["Sorry, something went wrong with the try-on process."]))
            else
              Sql.add_session (new_Session (u_id user) media_url) ;;
              Sql.commit env OpSessionCommit ;;
              ret (mkResponse 200
                     (Twiml ["Starting a new virtual try-on session. Please send the garment image."]))
        end
    end.

(** The route as Flask serves it: [@rate_limit] around [webhook]. *)
Definition webhook_route (env : Env) (form : Form) : M Response :=
  rate_limit env form (webhook env form).

Definition post_webhook (env : Env) (form : Form) (w : World) : Response * World :=
  serve (webhook_route env form) w.

(** ** [/user/<phone_number>/limits] *)

Definition check_limits (env : Env) (phone_number : string) : M Response :=
  let key := RateLimiter.key phone_number in
  do current_count <-
    (calling env OpRedisGet RedisConnectionError ;;
     gets (fun c => Redis.get (now env) key (redis (world c))));
  do ttl <-
    (calling env OpRedisTtl RedisConnectionError ;;
     gets (fun c => Redis.ttl (now env) key (redis (world c))));
  do user <- Sql.user_by_phone env OpUserQuery (Some phone_number);
  (* a present value is a non-empty string, hence truthy *)
  let used := match current_count with Some n => n | None => 0 end in
  ret (mkResponse 200 (Json
    {| ls_phone_number := phone_number;
       daily_requests_used := used;
       daily_requests_remaining := Config.MAX_DAILY_REQUESTS - used;
       reset_in_seconds := if 0 <? ttl then ttl else 86400;
       total_requests_all_time :=
         match user with Some u => request_count u | None => Some 0 end;
       ls_last_request :=
         match user with Some u => last_request u | None => None end |})).

Definition get_limits (env : Env) (phone_number : string) (w : World)
  : Response * World :=
  serve (check_limits env phone_number) w.

(** ** Sequences of requests *)

(** Successive limiter checks for one caller, one environment per check;
    the outcomes of the checks that returned, in order.  A check that
    raised returned neither outcome. *)
Fixpoint run_checks (phone_number : string) (envs : list Env) (c : Ctx)
  : list bool * Ctx :=
  match envs with
  | [] => ([], c)
  | env :: rest =>
      match RateLimiter.check_limit env phone_number c with
      | Ok limited c' =>
          let '(outcomes, c'') := run_checks phone_number rest c' in
          (limited :: outcomes, c'')
      | Raise _ c' => run_checks phone_number rest c'
      end
  end.

(** Number of checks in [outcomes] that were let through. *)
Definition allowed (outcomes : list bool) : Z :=
  Z.of_nat (length (List.filter negb outcomes)).

(** Redis answers during this request. *)
Definition redis_up (env : Env) : Prop :=
  faults env OpRedisGet = false /\ faults env OpRedisExecute = false.

(** ** Two workers inside [check_limit]

    [run.py] serves with six threads.  Redis runs each round trip
    atomically, and [check_limit] makes two of them: the GET on the plain
    client, then the EXEC of the pipeline.  A worker is therefore at one of
    three points. *)

Module Interleaving.

Inductive point :=
| AtGet                              (* about to call redis_client.get *)
| AtExecute (pipe : list Redis.command)  (* commands queued, about to execute *)
| Returned (limited : bool).

Definition step (now : Z) (phone_number : string) (p : point)
    (r : gmap string Redis.entry) : point * gmap string Redis.entry :=
  let key := RateLimiter.key phone_number in
  match p with
  | AtGet =>
      match Redis.get now key r with
      | None => (AtExecute [Redis.SETEX key Config.RATE_LIMIT_DURATION 1], r)
      | Some n =>
          if Config.MAX_DAILY_REQUESTS <=? n then (Returned true, r)
          else (AtExecute [Redis.INCR key], r)
      end
  | AtExecute pipe => (Returned false, Redis.exec_all now pipe r)
  | Returned limited => (Returned limited, r)
  end.

Inductive worker := A | B.

Record state := mkState {
  at_A : point;
  at_B : point;
  store : gmap string Redis.entry
}.

Definition step_worker (now : Z) (phone_number : string) (w : worker)
    (s : state) : state :=
  match w with
  | A => let '(p, r) := step now phone_number (at_A s) (store s) in
         mkState p (at_B s) r
  | B => let '(p, r) := step now phone_number (at_B s) (store s) in
         mkState (at_A s) p r
  end.

(** A schedule names which worker makes the next round trip. *)
Definition run (now : Z) (phone_number : string) (schedule : list worker)
    (r : gmap string Redis.entry) : state :=
  foldl (fun s w => step_worker now phone_number w s)
        (mkState AtGet AtGet r) schedule.

End Interleaving.

(** ** States and environments used in the statements *)

(** The tables right after [db.create_all()], Redis and disk empty. *)
Definition empty_world : World := mkWorld ∅ (mkDB [] []) ∅ [].

(** An environment at clock [t] in which no call raises, the media fetch
    finds nothing and the prediction service fails. *)
Definition quiet (t : Z) : Env :=
  mkEnv t (fun _ => false) None (fun _ => None) (fun _ _ => GradioError)
        (fun _ => None) (fun img => img).



(** The locator [process_virtual_tryon] hands back. *)
Definition result_locator (env : Env) : string :=
  py_str (NGROK_URL env) +:+ "/static/result.png".

(** Where a run of the monad ends. *)
Definition ctx_of {A} (r : Res A) : Ctx :=
  match r with Ok _ c => c | Raise _ c => c end.

(** Nothing uncommitted in the unit of work. *)
Definition clean (c : Ctx) : Prop := uow c = mkUow (db (world c)) [] [].

(** The committed effect of one run of the view on the session table:
    nothing; a first image opening a session; a second image completing the
    active one; or a new session opened next to an active one that already
    has its garment image. *)
Inductive session_effect (env : Env) (form : Form) (l l' : list Session) : Prop :=
| effect_none :
    l' = l -> session_effect env form l l'
| effect_open uid :
    List.find (Sql.is_active_of uid) l = None ->
    l' = (l ++ [mkSession (Some (1 + Sql.max_id s_id l)) uid
                  (form_MediaUrl0 form) None None (Some (now env)) None])%list ->
    session_effect env form l l'
| effect_complete uid s :
    List.find (Sql.is_active_of uid) l = Some s ->
    truthy (garment_image s) = false ->
    (let s1 := with_garment_image (form_MediaUrl0 form) s in
     let s2 := with_result_image (Some (result_locator env)) s1 in
     let s3 := with_completed_at (Some (now env)) s2 in
     l' = Sql.replace s2 s3 (Sql.replace s1 s2 (Sql.replace s s1 l))) ->
    session_effect env form l l'
| effect_reopen uid s :
    List.find (Sql.is_active_of uid) l = Some s ->
    truthy (garment_image s) = true ->
    l' = (l ++ [mkSession (Some (1 + Sql.max_id s_id l)) uid
                  (form_MediaUrl0 form) None None (Some (now env)) None])%list ->
    session_effect env form l l'.


(** A caller, a user table that already holds the caller's row, and an
    environment in which every collaborator works: the media fetch returns
    the bytes behind the URL, the prediction service writes one result file,
    and OpenCV reads and re-encodes it. *)
Definition caller : string := "whatsapp:+15550100".

Definition provisioned : World :=
  mkWorld ∅ (mkDB [mkUser (Some 1) caller (Some 0) None (Some 0)] []) ∅ [].

Definition working (t : Z) : Env :=
  mkEnv t (fun _ => false) (Some "https://tryon.example")
        (fun url => Some ("image at " +:+ url))
        (fun person garment =>
           GradioResult ["/tmp/gradio/output.png"]
             [("/tmp/gradio/output.png", person +:+ " wearing " +:+ garment)])
        (fun raw => Some raw) (fun img => img).

(** The same, with the prediction service raising. *)
Definition prediction_down (t : Z) : Env :=
  mkEnv t (fun _ => false) (Some "https://tryon.example")
        (fun url => Some ("image at " +:+ url))
        (fun _ _ => GradioError)
        (fun raw => Some raw) (fun img => img).

(** The same as [working], with the calls in [down] raising. *)
Definition faulty (down : list Op) (t : Z) : Env :=
  mkEnv t (fun op => bool_decide (op ∈ down)) (Some "https://tryon.example")
        (fun url => Some ("image at " +:+ url))
        (fun person garment =>
           GradioResult ["/tmp/gradio/output.png"]
             [("/tmp/gradio/output.png", person +:+ " wearing " +:+ garment)])
        (fun raw => Some raw) (fun img => img).

Definition image (url : string) : Form := mkForm (Some caller) (Some url).
Definition text_only : Form := mkForm (Some caller) None.

(** ** The first statement of [download_from_twilio]

    [message_sid, media_sid = media_url.split('/')[-3], media_url.split('/')[-1]].
    In [ImageProcessor.download_from_twilio] above, [fetch_media] stands for
    the whole body; this is its first step taken alone. *)

(** [s.split(sep)] for a one-character separator: cut at every occurrence,
    empty pieces kept. *)
Fixpoint py_split (sep : ascii) (s : string) : list string :=
  match s with
  | EmptyString => [""]
  | String ch rest =>
      if Ascii.eqb ch sep then "" :: py_split sep rest
      else match py_split sep rest with
           | piece :: pieces => String ch piece :: pieces
           | [] => [String ch ""]
           end
  end.

(** [l[-k]] for [k >= 1]; [None] stands for [IndexError]. *)
Definition from_end {A} (l : list A) (k : nat) : option A :=
  if (length l <? k)%nat then None else l !! (length l - k)%nat.

Definition twilio_sids (media_url : string) : option (string * string) :=
  let parts := py_split "/"%char media_url in
  match from_end parts 3, from_end parts 1 with
  | Some message_sid, Some media_sid => Some (message_sid, media_sid)
  | _, _ => None
  end.

(** Occurrences of a character in a string. *)
Fixpoint count_char (ch : ascii) (s : string) : nat :=
  match s with
  | EmptyString => 0
  | String c rest => (if Ascii.eqb c ch then 1 else 0) + count_char ch rest
  end.

(** * Properties *)

(** ** The Redis model *)

Lemma get_insert_live now k v d (r : gmap string Redis.entry) :
  Redis.live now (Redis.Entry v d) = true ->
  Redis.get now k (<[k := Redis.Entry v d]> r) = Some v.
Proof.
  intros Hl. unfold Redis.get, Redis.lookup_live.
  rewrite lookup_insert_eq. by rewrite Hl.
Qed.

Lemma get_Some now k n (r : gmap string Redis.entry) :
  Redis.get now k r = Some n ->
  exists d, r !! k = Some (Redis.Entry n d) /\ Redis.live now (Redis.Entry n d) = true.
Proof.
  unfold Redis.get, Redis.lookup_live. intros H.
  destruct (r !! k) as [[v d]|] eqn:E; [|done].
  destruct (Redis.live now (Redis.Entry v d)) eqn:L; [|done].
  simpl in H. injection H as ->. eauto.
Qed.

Lemma live_before now n d : now < d -> Redis.live now (Redis.Entry n (Some d)) = true.
Proof. intros H. unfold Redis.live. simpl. by apply Z.ltb_lt. Qed.

Lemma get_of_entry now k n d (r : gmap string Redis.entry) :
  r !! k = Some (Redis.Entry n (Some d)) -> now < d ->
  Redis.get now k r = Some n.
Proof.
  intros E Hlt. unfold Redis.get, Redis.lookup_live, Redis.live. rewrite E. simpl.
  by rewrite (proj2 (Z.ltb_lt now d) Hlt).
Qed.


(** ** [check_limit], one call *)

Section CheckLimit.
Variable env : Env.
Variable phone_number : string.
Hypothesis Hup : redis_up env.

Lemma check_limit_fresh c :
  Redis.get (now env) (RateLimiter.key phone_number) (redis (world c)) = None ->
  RateLimiter.check_limit env phone_number c =
    Ok false
       (set_redis (<[RateLimiter.key phone_number :=
                       Redis.Entry 1 (Some (now env + 86400))]>
                     (redis (world c))) c).
Proof.
  destruct Hup as [Hg He]. intros H.
  unfold RateLimiter.check_limit, bind, calling, gets, modify, ret.
  rewrite Hg. rewrite H, He. reflexivity.
Qed.

Lemma check_limit_below c n d :
  redis (world c) !! RateLimiter.key phone_number = Some (Redis.Entry n d) ->
  Redis.live (now env) (Redis.Entry n d) = true ->
  n < 100 ->
  RateLimiter.check_limit env phone_number c =
    Ok false
       (set_redis (<[RateLimiter.key phone_number := Redis.Entry (n + 1) d]>
                     (redis (world c))) c).
Proof.
  destruct Hup as [Hg He]. intros E L Hn.
  unfold RateLimiter.check_limit, bind, calling, gets, modify, ret.
  rewrite Hg.
  unfold Redis.get, Redis.lookup_live. rewrite E, L. simpl.
  unfold Config.MAX_DAILY_REQUESTS.
  rewrite (proj2 (Z.leb_gt 100 n) Hn), He.
  unfold Redis.lookup_live. by rewrite E, L.
Qed.

Lemma check_limit_reached c n :
  Redis.get (now env) (RateLimiter.key phone_number) (redis (world c)) = Some n ->
  100 <= n ->
  RateLimiter.check_limit env phone_number c = Ok true c.
Proof.
  destruct Hup as [Hg He]. intros H Hn.
  unfold RateLimiter.check_limit, bind, calling, gets, modify, ret.
  rewrite Hg. rewrite H.
  unfold Config.MAX_DAILY_REQUESTS.
  by rewrite (proj2 (Z.leb_le 100 n) Hn).
Qed.

End CheckLimit.

(** ** [check_limit] over one window *)

Lemma allowed_cons limited outcomes :
  allowed (limited :: outcomes) =
  (if limited then 0 else 1) + allowed outcomes.
Proof. unfold allowed. destruct limited; cbn [List.filter negb length]; lia. Qed.

Lemma allowed_nonneg outcomes : 0 <= allowed outcomes.
Proof. unfold allowed. lia. Qed.

(** While every check falls before the deadline [D] of the caller's entry,
    the deadline stays, the counter grows by the number of checks let
    through, and it stops at the limit. *)
Lemma run_checks_window phone_number D envs :
  forall c n,
    Forall redis_up envs ->
    Forall (fun env => now env < D) envs ->
    redis (world c) !! RateLimiter.key phone_number
      = Some (Redis.Entry n (Some D)) ->
    n <= 100 ->
    let '(outcomes, c') := run_checks phone_number envs c in
    redis (world c') !! RateLimiter.key phone_number
      = Some (Redis.Entry (n + allowed outcomes) (Some D))
    /\ n + allowed outcomes <= 100.
Proof.
  induction envs as [|env rest IH]; intros c n Hup Hin E Hn; simpl.
  - unfold allowed. simpl. rewrite Z.add_0_r. done.
  - apply Forall_cons in Hup as [Hup1 Hup]. apply Forall_cons in Hin as [Hin1 Hin].
    destruct (Z_lt_ge_dec n 100) as [Hlt|Hge].
    + rewrite (check_limit_below env phone_number Hup1 c n (Some D) E);
        [|by apply live_before|done].
      specialize (IH (set_redis (<[RateLimiter.key phone_number :=
                                     Redis.Entry (n + 1) (Some D)]> (redis (world c))) c)
                     (n + 1) Hup Hin).
      destruct (run_checks _ rest _) as [outcomes c'].
      rewrite allowed_cons.
      destruct IH as [IH1 IH2]; [simpl; apply lookup_insert_eq | lia |].
      split; [rewrite IH1; do 2 f_equal; lia | lia].
    + rewrite (check_limit_reached env phone_number Hup1 c n);
        [|by apply (get_of_entry _ _ _ D)|lia].
      specialize (IH c n Hup Hin E Hn).
      destruct (run_checks _ rest _) as [outcomes c'].
      rewrite allowed_cons. simpl. done.
Qed.

(** C1.  One call of [check_limit] with Redis answering: with no live
    entry it lets the caller through and leaves the counter at 1; with a
    counter below 100 it lets the caller through and adds one; with a
    counter at 100 or more it answers limited and changes nothing.  Over a
    window: the first check, at a time with no live entry, opens it; after
    any further checks before its deadline, with [N] checks let through in
    all, the counter reads [N], never above 100, and the next check in the
    window answers limited exactly when [N >= 100]. *)
Theorem check_limit_quota :
  (forall env phone_number c,
      redis_up env ->
      Redis.get (now env) (RateLimiter.key phone_number) (redis (world c)) = None ->
      exists c',
        RateLimiter.check_limit env phone_number c = Ok false c' /\
        Redis.get (now env) (RateLimiter.key phone_number) (redis (world c')) = Some 1)
  /\
  (forall env phone_number c n,
      redis_up env ->
      Redis.get (now env) (RateLimiter.key phone_number) (redis (world c)) = Some n ->
      n < 100 ->
      exists c',
        RateLimiter.check_limit env phone_number c = Ok false c' /\
        Redis.get (now env) (RateLimiter.key phone_number) (redis (world c'))
          = Some (n + 1))
  /\
  (forall env phone_number c n,
      redis_up env ->
      Redis.get (now env) (RateLimiter.key phone_number) (redis (world c)) = Some n ->
      100 <= n ->
      RateLimiter.check_limit env phone_number c = Ok true c)
  /\
  (forall phone_number first rest next c,
      Forall redis_up (first :: rest ++ [next]) ->
      Redis.get (now first) (RateLimiter.key phone_number) (redis (world c)) = None ->
      Forall (fun env => now env < now first + 86400) (rest ++ [next]) ->
      let N := allowed (run_checks phone_number (first :: rest) c).1 in
      let c' := (run_checks phone_number (first :: rest) c).2 in
      Redis.get (now next) (RateLimiter.key phone_number) (redis (world c')) = Some N
      /\ N <= 100
      /\ exists limited c'',
           RateLimiter.check_limit next phone_number c' = Ok limited c'' /\
           (limited = true <-> 100 <= N)).
Proof.
  split; [|split; [|split]].
  - intros env p c Hup H. eexists. split; [by apply check_limit_fresh|].
    simpl. apply get_insert_live, live_before. lia.
  - intros env p c n Hup H Hn.
    destruct (get_Some _ _ _ _ H) as (d & E & L).
    eexists. split; [by eapply check_limit_below|].
    simpl. by apply get_insert_live.
  - intros env p c n Hup H Hn. by eapply check_limit_reached.
  - intros p first rest next c Hup H Hin.
    apply Forall_cons in Hup as [Hup1 Hup].
    apply Forall_app in Hup as [Hup Hupn]. apply Forall_cons in Hupn as [Hupn _].
    apply Forall_app in Hin as [Hin Hinn]. apply Forall_cons in Hinn as [Hinn _].
    simpl. rewrite (check_limit_fresh first p Hup1 c H).
    pose proof (run_checks_window p (now first + 86400) rest
      (set_redis (<[RateLimiter.key p := Redis.Entry 1 (Some (now first + 86400))]>
                    (redis (world c))) c) 1 Hup Hin) as W.
    destruct (run_checks p rest _) as [outcomes c'].
    destruct W as [W1 W2]; [simpl; apply lookup_insert_eq | lia |].
    simpl. rewrite allowed_cons. simpl.
    pose proof (get_of_entry (now next) _ _ _ _ W1 Hinn) as G.
    split; [done|]. split; [done|].
    destruct (Z_lt_ge_dec (1 + allowed outcomes) 100) as [Hlt|Hge].
    + exists false. eexists. split.
      * by eapply (check_limit_below next p Hupn c' _ _ W1); [apply live_before|].
      * split; [done | lia].
    + exists true, c'. split.
      * eapply check_limit_reached; [done | exact G | lia].
      * split; [lia | done].
Qed.

(** A hundred checks at one instant are let through, the next is not. *)
Example hundred_and_first_check_is_limited :
  let '(outcomes, c) := run_checks caller (replicate 100 (quiet 0)) (fresh empty_world) in
  allowed outcomes = 100
  /\ Redis.get 0 (RateLimiter.key caller) (redis (world c)) = Some 100
  /\ RateLimiter.check_limit (quiet 0) caller c = Ok true c.
Proof. vm_compute. repeat split. Qed.

(** ** Window expiry *)



(** ** Unfolding the request monad *)

Ltac unfold_monad :=
  unfold Sql.add_user, Sql.add_session, Sql.setattr_user, Sql.setattr_session,
    Sql.commit, Sql.rollback, Sql.user_by_phone, Sql.active_session_of,
    ImageProcessor.write_file, MessageHandler.send_media_message,
    MessageHandler.create_error_response in *;
  unfold bind, ret, raise, gets, modify, calling, try_except in *.

(** ** The job dispatcher *)

Lemma locator_truthy env : truthy (Some (result_locator env)) = true.
Proof.
  unfold truthy, result_locator. apply negb_true_iff, bool_decide_eq_false.
  destruct (py_str (NGROK_URL env)); discriminate.
Qed.

(** [process_virtual_tryon] always returns; it touches only the disk; when
    it returns a locator, that is the fixed one and the re-encoded image has
    just been written under the fixed path. *)
Lemma process_virtual_tryon_returns env person_url garment_url c :
  exists o c',
    ImageProcessor.process_virtual_tryon env person_url garment_url c = Ok o c' /\
    uow c' = uow c /\
    redis (world c') = redis (world c) /\
    db (world c') = db (world c) /\
    outbox (world c') = outbox (world c) /\
    (o = None \/
     o = Some (result_locator env) /\
     exists person garment path rest downloads raw img before,
       gradio_predict env person garment = GradioResult (path :: rest) downloads /\
       cv2_imread env raw = Some img /\
       files (world c') =
         <[ImageProcessor.result_path := cv2_encode_png env img]> before).
Proof.
  unfold ImageProcessor.process_virtual_tryon, ImageProcessor.download_from_twilio.
  unfold_monad.
  repeat (case_match; simplify_eq/=);
    do 2 eexists; (split; [reflexivity|]);
    repeat (split; [done|]);
    (by left) || (right; split; [done|]; do 8 eexists; eauto).
Qed.

(** ** The decorator *)

(** [check_limit] touches nothing but Redis. *)
Lemma check_limit_frame env phone_number c :
  let c' := ctx_of (RateLimiter.check_limit env phone_number c) in
  uow c' = uow c /\ db (world c') = db (world c) /\
  files (world c') = files (world c) /\ outbox (world c') = outbox (world c).
Proof.
  unfold RateLimiter.check_limit. unfold_monad.
  repeat (case_match; simplify_eq/=); done.
Qed.

Lemma find_replace_user p u u' (l : list User) :
  List.find (fun r => bool_decide (Some (phone_number r) = p)) l = Some u ->
  phone_number u' = phone_number u ->
  List.find (fun r => bool_decide (Some (phone_number r) = p))
            (Sql.replace u u' l) = Some u'.
Proof.
  intros H Hp. induction l as [|r l IH]; [done|]. simpl in *.
  destruct (bool_decide (Some (phone_number r) = p)) eqn:E.
  - injection H as ->. rewrite (bool_decide_eq_true_2 (u = u)) by done.
    by rewrite Hp, E.
  - destruct (bool_decide (r = u)) eqn:Er.
    + apply bool_decide_eq_true in Er. subst r.
      apply find_some in H as [_ H]. apply bool_decide_eq_true in H.
      apply bool_decide_eq_false in E. done.
    + rewrite E. by apply IH.
Qed.

(** Either the decorator answers by itself and leaves the tables, the disk
    and the outbox as they were, or it runs the view: then the limiter let
    the caller through, the caller's row exists with a counter, the User
    update is committed unless the commit raised, and the view starts on a
    clean unit of work with the session table untouched. *)
Lemma rate_limit_cases env form f c :
  clean c ->
  (let c' := ctx_of (rate_limit env form f c) in
   (forall r c'', rate_limit env form f c = Ok r c'' ->
                  status r = 400 \/ status r = 429) /\
   db (world c') = db (world c) /\
   files (world c') = files (world c) /\ outbox (world c') = outbox (world c))
  \/
  (exists c0 c1 u n,
     rate_limit env form f c = f c1 /\
     truthy (form_From form) = true /\
     RateLimiter.check_limit env (py_str (form_From form)) c = Ok false c0 /\
     List.find (fun r => bool_decide (Some (phone_number r) = form_From form))
               (users (db (world c))) = Some u /\
     request_count u = Some n /\
     faults env OpUserQuery = false /\
     clean c1 /\
     redis (world c1) = redis (world c0) /\
     files (world c1) = files (world c) /\
     outbox (world c1) = outbox (world c) /\
     sessions (db (world c1)) = sessions (db (world c)) /\
     users (db (world c1)) =
       if faults env OpUserCommit then users (db (world c))
       else
         let u1 := with_last_request (Some (now env)) u in
         Sql.replace u1 (with_request_count (Some (n + 1)) u1)
           (Sql.replace u u1 (users (db (world c))))).
Proof.
  intros Hc. remember (rate_limit env form f c) as res eqn:Hres.
  unfold rate_limit in Hres.
  destruct (truthy (form_From form)) eqn:Ht; simpl in Hres.
  2:{ left. subst res. unfold_monad. simpl. split; [|done].
      intros ? ? [= <- <-]. by left. }
  pose proof (check_limit_frame env (py_str (form_From form)) c) as Fr.
  unfold bind at 1 in Hres.
  destruct (RateLimiter.check_limit env (py_str (form_From form)) c)
    as [limited c0|e c0] eqn:Ecl; simpl in Fr;
    destruct Fr as (Fu & Fd & Ff & Fo).
  2:{ left. subst res. simpl. split; [|done]. intros; discriminate. }
  destruct limited.
  { left. subst res. unfold_monad. simpl. split; [|done].
    intros ? ? [= <- <-]. by right. }
  unfold clean in Hc. rewrite Hc in Fu.
  unfold_monad. destruct (faults env OpUserQuery) eqn:Eq; simpl in Hres.
  { left. subst res. simpl. split; [|done]. intros; discriminate. }
  rewrite Fu in Hres. simpl in Hres.
  destruct (List.find _ (users (db (world c)))) as [u|] eqn:Ef; simpl in Hres.
  2:{ left. subst res. simpl. split; [|done]. intros; discriminate. }
  destruct (request_count u) as [n|] eqn:En; simpl in Hres.
  2:{ left. subst res. simpl. split; [|done]. intros; discriminate. }
  right. exists c0.
  destruct (faults env OpUserCommit) eqn:Ecm; simpl in Hres;
    (eexists _, u, n; split; [exact Hres|]);
    unfold clean, Sql.flush; simpl; rewrite ?Fu; simpl;
    rewrite ?app_nil_r, ?Fd, ?Ff, ?Fo; repeat split; done.
Qed.

(** ** The view *)

(** On a clean unit of work the view leaves users and Redis alone, and its
    committed effect on the session table is one of the four above. *)
Lemma webhook_cases env form c :
  clean c ->
  let c' := ctx_of (webhook env form c) in
  users (db (world c')) = users (db (world c)) /\
  redis (world c') = redis (world c) /\
  session_effect env form (sessions (db (world c))) (sessions (db (world c'))).
Proof.
  intros Hc. unfold clean in Hc.
  remember (webhook env form c) as res eqn:Hres. simpl.
  unfold webhook in Hres.
  destruct (truthy (form_MediaUrl0 form)) eqn:Hm; simpl in Hres.
  2:{ subst res. unfold_monad. simpl. repeat split. by apply effect_none. }
  unfold_monad.
  destruct (faults env OpHandlerUserQuery) eqn:F1; simpl in Hres.
  { subst res. simpl. repeat split. by apply effect_none. }
  rewrite Hc in Hres. simpl in Hres.
  destruct (List.find _ (users (db (world c)))) as [user|] eqn:Eu; simpl in Hres.
  2:{ subst res. simpl. repeat split. by apply effect_none. }
  destruct (faults env OpSessionQuery) eqn:F2; simpl in Hres.
  { subst res. simpl. repeat split. by apply effect_none. }
  rewrite Hc in Hres. simpl in Hres.
  destruct (List.find _ (sessions (db (world c)))) as [s|] eqn:Es; simpl in Hres.
  2:{ destruct (faults env OpSessionCommit) eqn:F3; simpl in Hres; subst res; simpl.
      - repeat split. by apply effect_none.
      - rewrite Hc. simpl. rewrite app_nil_r. repeat split.
        by eapply effect_open. }
  destruct (truthy (garment_image s)) eqn:Eg; simpl in Hres.
  { destruct (faults env OpSessionCommit) eqn:F3; simpl in Hres; subst res; simpl.
    - repeat split. by apply effect_none.
    - rewrite Hc. simpl. rewrite app_nil_r. repeat split.
      by eapply effect_reopen. }
  match type of Hres with
  | context [ImageProcessor.process_virtual_tryon env ?p ?g ?c1] =>
      destruct (process_virtual_tryon_returns env p g c1)
        as (o & c2 & Ep & Pu & Pr & Pd & Po & Pres);
      rewrite Ep in Hres
  end.
  simpl in Pu, Pr, Pd, Po.
  destruct Pres as [->|[-> _]].
  { simpl in Hres. subst res. simpl. rewrite Pd, Pr. repeat split.
    by apply effect_none. }
  rewrite locator_truthy in Hres.
  destruct (faults env OpSessionCommit) eqn:F3; simpl in Hres.
  { subst res. simpl. rewrite Pd, Pr. repeat split. by apply effect_none. }
  rewrite Pu in Hres. simpl in Hres. rewrite Hc in Hres. simpl in Hres.
  destruct (faults env OpSendMedia) eqn:F4; simpl in Hres; subst res; simpl;
    rewrite ?app_nil_r, ?Pr; (repeat split); by eapply effect_complete.
Qed.

Lemma serve_world handler w :
  (serve handler w).2 = world (ctx_of (handler (fresh w))).
Proof. unfold serve. by destruct (handler _). Qed.

Lemma fresh_clean w : clean (fresh w).
Proof. done. Qed.

(** The committed effect of one delivery on the session table. *)
Lemma post_webhook_sessions env form w :
  session_effect env form (sessions (db w))
                 (sessions (db (post_webhook env form w).2)).
Proof.
  unfold post_webhook. rewrite serve_world. unfold webhook_route.
  destruct (rate_limit_cases env form (webhook env form) (fresh w) (fresh_clean w))
    as [(_ & Hd & _)
       |(c0 & c1 & u & n & Hr & _ & _ & _ & _ & _ & Hc & _ & _ & _ & Hs & _)].
  - apply effect_none. by rewrite Hd.
  - rewrite Hr. rewrite <- (Hs : _ = sessions (db w)).
    by apply webhook_cases.
Qed.

(** ** One active session per user *)


Lemma replace_chain (s s1 s2 s3 : Session) l :
  Forall2 (fun r r' => r' = r \/ r' = s3) l
          (Sql.replace s2 s3 (Sql.replace s1 s2 (Sql.replace s s1 l))).
Proof.
  induction l as [|r l IH]; simpl; constructor; [|exact IH].
  repeat case_bool_decide; simplify_eq; auto.
Qed.


Lemma Forall_pointwise {A} (Q : A -> Prop) (x : A) l l' :
  Q x ->
  Forall2 (fun r r' => r' = r \/ r' = x) l l' ->
  Forall Q l -> Forall Q l'.
Proof.
  intros Hx H. induction H as [|r r' l l' [->| ->] _ IH]; intros HQ.
  - done.
  - apply Forall_cons in HQ as [? ?]. constructor; auto.
  - apply Forall_cons in HQ as [? ?]. constructor; auto.
Qed.


Lemma check_limits_frame env phone_number c :
  ctx_of (check_limits env phone_number c) = c.
Proof.
  unfold check_limits. unfold_monad.
  repeat (case_match; simplify_eq/=); done.
Qed.

Lemma get_limits_world env phone_number w :
  (get_limits env phone_number w).2 = w.
Proof.
  unfold get_limits. rewrite serve_world. by rewrite check_limits_frame.
Qed.




(** ** The two-image flow on concrete deliveries *)

(** For a caller whose row exists, image A opens a session and image B
    completes it. *)
Example provisioned_two_images :
  let '(r1, w1) := post_webhook (working 0) (image "A") provisioned in
  let '(r2, w2) := post_webhook (working 60) (image "B") w1 in
  body r1 = Twiml ["Great! Now please send the image of the garment you want to try on."]
  /\ sessions (db w1) =
       [mkSession (Some 1) (Some 1) (Some "A") None None (Some 0) None]
  /\ body r2 = Twiml ["Here is your virtual try-on result!"]
  /\ sessions (db w2) =
       [mkSession (Some 1) (Some 1) (Some "A") (Some "B")
          (Some "https://tryon.example/static/result.png") (Some 0) (Some 60)]
  /\ outbox w2 = [(caller, "https://tryon.example/static/result.png")].
Proof. vm_compute. repeat split. Qed.


(** C5.  For a caller without a row and without a live quota entry, the
    decorator builds [User(phone_number=...)], whose [request_count] is
    still unset, and [user.request_count += 1] raises: the delivery ends in
    a 500 and the tables are as before, so no session is opened. *)
Theorem fresh_identity_first_image_raises env form w :
  truthy (form_From form) = true ->
  redis_up env ->
  faults env OpUserQuery = false ->
  Redis.get (now env) (RateLimiter.key (py_str (form_From form))) (redis w) = None ->
  List.find (fun u => bool_decide (Some (phone_number u) = form_From form))
            (users (db w)) = None ->
  (post_webhook env form w).1 = mkResponse 500 (Unhandled TypeError) /\
  db (post_webhook env form w).2 = db w.
Proof.
  intros Ht Hup Hq Hg Hf.
  assert (exists c, webhook_route env form (fresh w) = Raise TypeError c /\
                    db (world c) = db w) as (c & E & Hd).
  { unfold webhook_route, rate_limit. rewrite Ht. simpl.
    unfold bind at 1.
    rewrite (check_limit_fresh env _ Hup (fresh w) Hg).
    unfold_monad. rewrite Hq. simpl. rewrite Hf. simpl. by eexists. }
  unfold post_webhook, serve. by rewrite E.
Qed.

Lemma fresh_identity_first_image_raises_witness :
  (post_webhook (working 0) (image "A") empty_world).1
    = mkResponse 500 (Unhandled TypeError) /\
  db (post_webhook (working 0) (image "A") empty_world).2 = db empty_world.
Proof.
  apply (fresh_identity_first_image_raises (working 0) (image "A") empty_world);
    [reflexivity | split; reflexivity | reflexivity | reflexivity | reflexivity].
Defined.

(** The second image meets the same fate: after A and B a caller without a
    row has no row, no session, and two units of quota spent. *)
Example fresh_identity_two_images :
  let '(r1, w1) := post_webhook (working 0) (image "A") empty_world in
  let '(r2, w2) := post_webhook (working 60) (image "B") w1 in
  r1 = mkResponse 500 (Unhandled TypeError)
  /\ r2 = mkResponse 500 (Unhandled TypeError)
  /\ db w2 = mkDB [] []
  /\ Redis.get 60 (RateLimiter.key caller) (redis w2) = Some 2.
Proof. vm_compute. repeat split. Qed.

(** ** Events without media *)

(** A check that let the caller through has consumed one unit. *)
Lemma check_limit_allowed env phone_number c c0 :
  RateLimiter.check_limit env phone_number c = Ok false c0 ->
  Redis.get (now env) (RateLimiter.key phone_number) (redis (world c0)) =
    Some (match Redis.get (now env) (RateLimiter.key phone_number) (redis (world c)) with
          | Some n => n + 1
          | None => 1
          end).
Proof.
  intros H.
  destruct (faults env OpRedisGet) eqn:Fg.
  { unfold RateLimiter.check_limit in H. unfold_monad. by rewrite Fg in H. }
  destruct (faults env OpRedisExecute) eqn:Fe.
  { unfold RateLimiter.check_limit in H. unfold_monad. rewrite Fg, Fe in H.
    simpl in H. repeat case_match; simplify_eq. }
  assert (redis_up env) as Hup by done.
  destruct (Redis.get (now env) (RateLimiter.key phone_number) (redis (world c)))
    as [n|] eqn:G.
  - destruct (Z_lt_ge_dec n 100) as [Hlt|Hge].
    + destruct (get_Some _ _ _ _ G) as (d & E & L).
      rewrite (check_limit_below env phone_number Hup c n d E L Hlt) in H.
      injection H as <-. simpl. by apply get_insert_live.
    + rewrite (check_limit_reached env phone_number Hup c n G) in H by lia.
      discriminate.
  - rewrite (check_limit_fresh env phone_number Hup c G) in H.
    injection H as <-. simpl. apply get_insert_live, live_before. lia.
Qed.

(** C6.  Whenever a delivery is answered with the missing-image reply, the
    limiter had already let the caller through and consumed one unit of
    quota, which stays consumed; the caller's row had its last-request time
    and lifetime counter updated (committed unless that commit raised); and
    the session table, the disk and the outbox are as before. *)
Theorem quota_consumed_before_media_check env form w :
  truthy (form_MediaUrl0 form) = false ->
  (post_webhook env form w).1 =
    mkResponse 200
      (Twiml ["We didn't receive an image. Please try sending your image again."]) ->
  let w' := (post_webhook env form w).2 in
  let key := RateLimiter.key (py_str (form_From form)) in
  (exists c0,
      RateLimiter.check_limit env (py_str (form_From form)) (fresh w) = Ok false c0 /\
      redis w' = redis (world c0))
  /\ Redis.get (now env) key (redis w') =
       Some (match Redis.get (now env) key (redis w) with
             | Some n => n + 1
             | None => 1
             end)
  /\ sessions (db w') = sessions (db w)
  /\ files w' = files w
  /\ outbox w' = outbox w
  /\ exists u n,
       List.find (fun r => bool_decide (Some (phone_number r) = form_From form))
                 (users (db w)) = Some u /\
       request_count u = Some n /\
       (faults env OpUserCommit = false ->
        List.find (fun r => bool_decide (Some (phone_number r) = form_From form))
                  (users (db w')) =
          Some (with_request_count (Some (n + 1))
                  (with_last_request (Some (now env)) u))).
Proof.
  intros Hm Hr. simpl.
  unfold post_webhook in *. rewrite serve_world. unfold serve in Hr.
  unfold webhook_route in *.
  destruct (rate_limit_cases env form (webhook env form) (fresh w) (fresh_clean w))
    as [(Hst & _)|(c0 & c1 & u & n & Hrl & _ & Hcl & Hfu & Hn & _ & Hc
                    & Hre & Hfi & Hou & Hse & Hus)].
  { destruct (rate_limit env form (webhook env form) (fresh w)) as [r c|e c] eqn:E.
    - simpl in Hr. subst r. destruct (Hst _ _ eq_refl); discriminate.
    - discriminate. }
  rewrite Hrl in *.
  assert (webhook env form c1 =
          Ok (mkResponse 200
                (Twiml ["We didn't receive an image. Please try sending your image again."]))
             c1) as Hw.
  { unfold webhook. rewrite Hm. reflexivity. }
  rewrite Hw. simpl.
  split; [by exists c0|].
  split; [rewrite Hre; apply (check_limit_allowed _ _ _ _ Hcl)|].
  repeat (split; [done|]).
  exists u, n. repeat (split; [done|]).
  intros Hcm. rewrite Hus, Hcm. simpl in *.
  apply find_replace_user; [|done].
  by apply find_replace_user.
Qed.

Lemma quota_consumed_before_media_check_witness :
  let w' := (post_webhook (working 0) text_only provisioned).2 in
  Redis.get 0 (RateLimiter.key caller) (redis w') = Some 1
  /\ sessions (db w') = []
  /\ users (db w') = [mkUser (Some 1) caller (Some 0) (Some 0) (Some 1)].
Proof.
  pose proof (quota_consumed_before_media_check (working 0) text_only provisioned
                eq_refl eq_refl) as (_ & Hq & Hs & _).
  split; [exact Hq|]. split; [exact Hs|]. reflexivity.
Defined.

(** ** Store faults *)



(** ** The limits view *)

(** C8.  [check_limits] changes nothing, whatever raises: neither Redis,
    nor the tables, nor the unit of work.  For a caller without a live
    quota entry it reports 0 requests used and 100 remaining. *)
Theorem check_limits_read_only :
  (forall env phone_number c, ctx_of (check_limits env phone_number c) = c)
  /\ (forall env phone_number w, (get_limits env phone_number w).2 = w)
  /\ (forall env phone_number w,
        faults env OpRedisGet = false ->
        faults env OpRedisTtl = false ->
        faults env OpUserQuery = false ->
        Redis.get (now env) (RateLimiter.key phone_number) (redis w) = None ->
        exists j,
          (get_limits env phone_number w).1 = mkResponse 200 (Json j) /\
          daily_requests_used j = 0 /\
          daily_requests_remaining j = 100).
Proof.
  split; [exact check_limits_frame|]. split; [exact get_limits_world|].
  intros env p w Fg Ft Fq G.
  unfold get_limits, serve, check_limits. unfold_monad.
  rewrite Fg, Ft, Fq. simpl. rewrite G. eexists. split; [reflexivity|]. done.
Qed.

(** ** Concurrent checks *)

(** Run by one worker without interruption, the two round trips are
    [check_limit]. *)
Lemma step_twice_is_check_limit env phone_number c :
  redis_up env ->
  let '(p1, r1) :=
    Interleaving.step (now env) phone_number Interleaving.AtGet (redis (world c)) in
  let '(p2, r2) := Interleaving.step (now env) phone_number p1 r1 in
  exists limited,
    p2 = Interleaving.Returned limited /\
    RateLimiter.check_limit env phone_number c = Ok limited (set_redis r2 c).
Proof.
  intros [Hg He]. unfold Interleaving.step, RateLimiter.check_limit. unfold_monad.
  rewrite Hg. simpl.
  destruct (Redis.get _ _ _) as [n|]; simpl.
  - destruct (Config.MAX_DAILY_REQUESTS <=? n); simpl.
    + exists true. split; [done|]. by destruct c as [[] ?].
    + exists false. rewrite He. done.
  - exists false. rewrite He. done.
Qed.

Lemma step_get_below now phone_number r n :
  Redis.get now (RateLimiter.key phone_number) r = Some n -> n < 100 ->
  Interleaving.step now phone_number Interleaving.AtGet r =
    (Interleaving.AtExecute [Redis.INCR (RateLimiter.key phone_number)], r).
Proof.
  intros G Hn. unfold Interleaving.step. rewrite G.
  unfold Config.MAX_DAILY_REQUESTS. by rewrite (proj2 (Z.leb_gt 100 n) Hn).
Qed.

Lemma step_get_none now phone_number r :
  Redis.get now (RateLimiter.key phone_number) r = None ->
  Interleaving.step now phone_number Interleaving.AtGet r =
    (Interleaving.AtExecute
       [Redis.SETEX (RateLimiter.key phone_number) Config.RATE_LIMIT_DURATION 1], r).
Proof. intros G. unfold Interleaving.step. by rewrite G. Qed.

Lemma incr_live now k n d (r : gmap string Redis.entry) :
  r !! k = Some (Redis.Entry n d) -> Redis.live now (Redis.Entry n d) = true ->
  Redis.exec_all now [Redis.INCR k] r = <[k := Redis.Entry (n + 1) d]> r.
Proof.
  intros E L. unfold Redis.exec_all. simpl. unfold Redis.lookup_live.
  by rewrite E, L.
Qed.

(** C9.  Two workers checking the same caller, each doing its GET before
    either executes its pipeline: with a live counter [n < 100] both are let
    through and the counter ends at [n + 2], so from 99 it passes the limit;
    with no live entry both are let through and the counter ends at 1. *)
Theorem check_limit_not_atomic now phone_number (r : gmap string Redis.entry) :
  let schedule := [Interleaving.A; Interleaving.B; Interleaving.A; Interleaving.B] in
  let s := Interleaving.run now phone_number schedule r in
  let key := RateLimiter.key phone_number in
  (forall n, Redis.get now key r = Some n -> n < 100 ->
      Interleaving.at_A s = Interleaving.Returned false /\
      Interleaving.at_B s = Interleaving.Returned false /\
      Redis.get now key (Interleaving.store s) = Some (n + 2))
  /\ (Redis.get now key r = None ->
      Interleaving.at_A s = Interleaving.Returned false /\
      Interleaving.at_B s = Interleaving.Returned false /\
      Redis.get now key (Interleaving.store s) = Some 1).
Proof.
  cbv zeta. unfold Interleaving.run. cbn [foldl]. split.
  - intros n G Hn. destruct (get_Some _ _ _ _ G) as (d & E & L).
    unfold Interleaving.step_worker.
    cbn [Interleaving.at_A Interleaving.at_B Interleaving.store].
    rewrite (step_get_below _ _ _ _ G Hn).
    cbn [Interleaving.at_A Interleaving.at_B Interleaving.store].
    rewrite (step_get_below _ _ _ _ G Hn).
    cbn [Interleaving.at_A Interleaving.at_B Interleaving.store Interleaving.step].
    rewrite (incr_live _ _ _ _ _ E L).
    rewrite (incr_live now _ (n + 1) d); [|apply lookup_insert_eq|exact L].
    repeat split. replace (n + 2) with (n + 1 + 1) by lia.
    apply get_insert_live. exact L.
  - intros G. unfold Interleaving.step_worker.
    cbn [Interleaving.at_A Interleaving.at_B Interleaving.store].
    rewrite (step_get_none _ _ _ G).
    cbn [Interleaving.at_A Interleaving.at_B Interleaving.store].
    rewrite (step_get_none _ _ _ G).
    cbn [Interleaving.at_A Interleaving.at_B Interleaving.store Interleaving.step].
    repeat split. unfold Redis.exec_all. simpl.
    apply get_insert_live, live_before. unfold Config.RATE_LIMIT_DURATION. lia.
Qed.

(** From 99, two concurrent deliveries are both let through and leave 101. *)
Example check_limit_race_at_99 :
  let r := {[ RateLimiter.key caller := Redis.Entry 99 (Some 86400) ]} in
  let s := Interleaving.run 10 caller
             [Interleaving.A; Interleaving.B; Interleaving.A; Interleaving.B] r in
  Interleaving.at_A s = Interleaving.Returned false /\
  Interleaving.at_B s = Interleaving.Returned false /\
  Redis.get 10 (RateLimiter.key caller) (Interleaving.store s) = Some 101.
Proof. vm_compute. repeat split. Qed.

(** ** One result location *)



(** Two completions in a row: both sessions point at the same locator and
    the file holds the later image only. *)
Example second_completion_overwrites_first :
  let '(_, w1) := post_webhook (working 0) (image "A") provisioned in
  let '(_, w2) := post_webhook (working 60) (image "B") w1 in
  let '(_, w3) := post_webhook (working 120) (image "C") w2 in
  let '(_, w4) := post_webhook (working 180) (image "D") w3 in
  files w2 !! "static/result.png" = Some "image at A wearing image at B"
  /\ files w4 !! "static/result.png" = Some "image at C wearing image at D"
  /\ map result_image (sessions (db w4)) =
       [Some "https://tryon.example/static/result.png";
        Some "https://tryon.example/static/result.png"].
Proof. vm_compute. repeat split. Qed.

(** * Further properties of the views *)

(** ** What the decorator turns away *)

(** X1.  A delivery whose form has no [From], or an empty one, is answered
    400 before anything else happens: no quota is spent, no row is read or
    written, whatever the environment would have raised. *)
Theorem missing_sender_rejected env form w :
  truthy (form_From form) = false ->
  post_webhook env form w =
    (mkResponse 400 (Twiml ["Unable to identify phone number."]), w).
Proof.
  intros Ht. unfold post_webhook, serve, webhook_route, rate_limit.
  rewrite Ht. simpl. unfold ret. simpl. reflexivity.
Qed.

Lemma missing_sender_rejected_witness :
  post_webhook (faulty [OpRedisGet; OpUserQuery] 0) (mkForm (Some "") (Some "A"))
               provisioned =
    (mkResponse 400 (Twiml ["Unable to identify phone number."]), provisioned).
Proof.
  apply (missing_sender_rejected (faulty [OpRedisGet; OpUserQuery] 0)
           (mkForm (Some "") (Some "A")) provisioned).
  reflexivity.
Defined.

(** X2.  A delivery from a caller whose live counter is at 100 or more is
    answered 429 and leaves the whole world as it was: the counter is not
    raised, the deadline is not moved, the caller's row is not updated, so
    the lifetime counter does not count it, and no session is touched. *)
Theorem limited_delivery_changes_nothing env form w n :
  truthy (form_From form) = true ->
  faults env OpRedisGet = false ->
  Redis.get (now env) (RateLimiter.key (py_str (form_From form))) (redis w) = Some n ->
  100 <= n ->
  post_webhook env form w =
    (mkResponse 429
       (Twiml ["You've reached your daily limit of 100 requests. Please try again tomorrow."]),
     w).
Proof.
  intros Ht Hg G Hn.
  assert (RateLimiter.check_limit env (py_str (form_From form)) (fresh w)
          = Ok true (fresh w)) as E.
  { unfold RateLimiter.check_limit. unfold_monad. rewrite Hg. simpl.
    rewrite G. unfold Config.MAX_DAILY_REQUESTS.
    by rewrite (proj2 (Z.leb_le 100 n) Hn). }
  unfold post_webhook, serve, webhook_route, rate_limit. rewrite Ht. simpl.
  unfold bind at 1. rewrite E. unfold_monad. reflexivity.
Qed.

Lemma limited_delivery_changes_nothing_witness :
  let w := mkWorld {[ RateLimiter.key caller := Redis.Entry 100 (Some 86400) ]}
                   (db provisioned) ∅ [] in
  (post_webhook (working 50) (image "A") w).1 =
    mkResponse 429
      (Twiml ["You've reached your daily limit of 100 requests. Please try again tomorrow."])
  /\ (post_webhook (working 50) (image "A") w).2 = w.
Proof.
  pose proof (limited_delivery_changes_nothing (working 50) (image "A")
                (mkWorld {[ RateLimiter.key caller := Redis.Entry 100 (Some 86400) ]}
                         (db provisioned) ∅ [])
                100 eq_refl eq_refl eq_refl) as H.
  cbv zeta. rewrite H by lia. split; reflexivity.
Defined.

(** ** One caller's quota does not touch another's *)

Lemma key_inj p q : RateLimiter.key p = RateLimiter.key q -> p = q.
Proof. unfold RateLimiter.key. intros H. injection H as H. exact H. Qed.

(** A check for one caller, whatever its outcome, leaves every other
    caller's entry as it was. *)
Lemma check_limit_other_callers env p q c :
  p <> q ->
  redis (world (ctx_of (RateLimiter.check_limit env p c))) !! RateLimiter.key q
    = redis (world c) !! RateLimiter.key q.
Proof.
  intros Hne.
  assert (RateLimiter.key p <> RateLimiter.key q) as Hk
    by (intros Hk; by apply key_inj in Hk).
  unfold RateLimiter.check_limit. unfold_monad.
  unfold Redis.exec_all, Redis.exec.
  repeat (case_match; simplify_eq/=); rewrite ?lookup_insert_ne; done.
Qed.

(** The decorator passes Redis on as [check_limit] left it, provided the
    view itself leaves Redis alone. *)
Lemma rate_limit_redis env form f c :
  (forall c1, redis (world (ctx_of (f c1))) = redis (world c1)) ->
  redis (world (ctx_of (rate_limit env form f c))) =
    if truthy (form_From form)
    then redis (world (ctx_of
           (RateLimiter.check_limit env (py_str (form_From form)) c)))
    else redis (world c).
Proof.
  intros Hf. unfold rate_limit.
  destruct (truthy (form_From form)); simpl; [|done].
  unfold bind at 1.
  destruct (RateLimiter.check_limit env (py_str (form_From form)) c)
    as [[] c0|e c0]; simpl; [done| |done].
  unfold_monad.
  repeat (case_match; simplify_eq/=); rewrite ?Hf; done.
Qed.

Lemma webhook_redis env form c :
  redis (world (ctx_of (webhook env form c))) = redis (world c).
Proof.
  unfold webhook.
  destruct (truthy (form_MediaUrl0 form)); simpl; [|done].
  unfold_monad.
  repeat match goal with
  | |- context [ImageProcessor.process_virtual_tryon ?e ?p ?g ?c1] =>
      let o := fresh "o" in let c2 := fresh "c2" in
      let Pr := fresh "Pr" in
      destruct (process_virtual_tryon_returns e p g c1)
        as (o & c2 & -> & _ & Pr & _);
      simpl in Pr
  | _ => case_match; simplify_eq/=
  end; rewrite ?Pr; done.
Qed.

(** X3.  A delivery from one caller, whatever becomes of it, leaves every
    other caller's counter and deadline exactly as they were. *)
Theorem delivery_spares_other_quotas env form w q :
  py_str (form_From form) <> q ->
  redis (post_webhook env form w).2 !! RateLimiter.key q
    = redis w !! RateLimiter.key q.
Proof.
  intros Hne. unfold post_webhook. rewrite serve_world. unfold webhook_route.
  rewrite rate_limit_redis by apply webhook_redis.
  destruct (truthy (form_From form)); [|done].
  by apply check_limit_other_callers.
Qed.

Lemma delivery_spares_other_quotas_witness :
  let r := {[ RateLimiter.key "whatsapp:+15550111" := Redis.Entry 7 (Some 500) ]} in
  redis (post_webhook (working 0) (image "A") (mkWorld r (db provisioned) ∅ [])).2
    !! RateLimiter.key "whatsapp:+15550111"
  = Some (Redis.Entry 7 (Some 500)).
Proof.
  cbv zeta.
  rewrite (delivery_spares_other_quotas (working 0) (image "A") _
             "whatsapp:+15550111"); [|done].
  reflexivity.
Defined.

(** ** The user table *)

(** What one delivery commits to the user table: nothing, or the caller's
    row with its last-request time set and its counter raised. *)
Lemma post_webhook_users env form w :
  users (db (post_webhook env form w).2) = users (db w)
  \/ exists u n,
       List.find (fun r => bool_decide (Some (phone_number r) = form_From form))
                 (users (db w)) = Some u /\
       request_count u = Some n /\
       let u1 := with_last_request (Some (now env)) u in
       users (db (post_webhook env form w).2) =
         Sql.replace u1 (with_request_count (Some (n + 1)) u1)
           (Sql.replace u u1 (users (db w))).
Proof.
  unfold post_webhook. rewrite serve_world. unfold webhook_route.
  destruct (rate_limit_cases env form (webhook env form) (fresh w) (fresh_clean w))
    as [(_ & Hd & _)
       |(c0 & c1 & u & n & Hr & _ & _ & Hf & Hn & _ & Hc & _ & _ & _ & _ & Hus)].
  - left. by rewrite Hd.
  - rewrite Hr.
    destruct (webhook_cases env form c1 Hc) as (Hu & _).
    rewrite Hu, Hus. destruct (faults env OpUserCommit); [by left|].
    right. by exists u, n.
Qed.

Lemma map_replace_same {A B} `{EqDecision A} (key : A -> B) (a b : A) l :
  key b = key a -> map key (Sql.replace a b l) = map key l.
Proof.
  intros H. unfold Sql.replace. rewrite map_map. apply map_ext.
  intros r. case_bool_decide; by subst.
Qed.

(** X4.  No delivery adds or removes a user row, and none changes a row's
    primary key, phone number or creation time: in particular the webhook
    never creates the row of a caller it does not know. *)
Theorem user_rows_are_never_created env form w :
  map (fun u => (u_id u, phone_number u, u_created_at u))
      (users (db (post_webhook env form w).2))
  = map (fun u => (u_id u, phone_number u, u_created_at u)) (users (db w)).
Proof.
  destruct (post_webhook_users env form w) as [->|(u & n & _ & _ & ->)]; [done|].
  rewrite !map_replace_same; done.
Qed.

(** X5.  Across any delivery each user's lifetime counter either keeps its
    value or grows by exactly one; it is never reset or lowered. *)
Theorem lifetime_counter_only_grows env form w :
  Forall2 (fun u u' =>
             request_count u' = request_count u \/
             exists n, request_count u = Some n /\ request_count u' = Some (n + 1))
          (users (db w)) (users (db (post_webhook env form w).2)).
Proof.
  destruct (post_webhook_users env form w) as [->|(u & n & _ & Hn & ->)].
  - apply Forall_Forall2_diag, Forall_forall. by left.
  - unfold Sql.replace. rewrite map_map.
    induction (users (db w)) as [|r l IH]; simpl; constructor; [|exact IH].
    repeat case_bool_decide; simplify_eq/=; eauto.
Qed.

(** When the limiter lets the caller through and the caller's row is
    found with a counter, the decorator runs the view. *)
Lemma rate_limit_passes env form f c c0 u n :
  clean c ->
  truthy (form_From form) = true ->
  RateLimiter.check_limit env (py_str (form_From form)) c = Ok false c0 ->
  faults env OpUserQuery = false ->
  List.find (fun r => bool_decide (Some (phone_number r) = form_From form))
            (users (db (world c))) = Some u ->
  request_count u = Some n ->
  exists c1,
    rate_limit env form f c = f c1 /\
    clean c1 /\
    redis (world c1) = redis (world c0) /\
    files (world c1) = files (world c) /\
    outbox (world c1) = outbox (world c) /\
    sessions (db (world c1)) = sessions (db (world c)) /\
    users (db (world c1)) =
      if faults env OpUserCommit then users (db (world c))
      else
        let u1 := with_last_request (Some (now env)) u in
        Sql.replace u1 (with_request_count (Some (n + 1)) u1)
          (Sql.replace u u1 (users (db (world c)))).
Proof.
  intros Hc Ht Hcl Hq Hf Hn.
  pose proof (check_limit_frame env (py_str (form_From form)) c) as Fr.
  rewrite Hcl in Fr. simpl in Fr. destruct Fr as (Fu & Fd & Ff & Fo).
  unfold clean in Hc. rewrite Hc in Fu.
  unfold rate_limit. rewrite Ht. simpl. unfold bind at 1. rewrite Hcl.
  unfold_monad. rewrite Hq. simpl. rewrite Fu. simpl. rewrite Hf. simpl.
  rewrite Hn. simpl.
  destruct (faults env OpUserCommit); simpl;
    (eexists; split; [reflexivity|]);
    unfold clean, Sql.flush; simpl; rewrite ?Fu; simpl;
    rewrite ?app_nil_r, ?Fd, ?Ff, ?Fo; repeat split; done.
Qed.

(** X6.  When the limiter lets a delivery through, the caller's row has a
    counter, and neither the row lookup nor the commit of the decorator
    raises, the delivery leaves that row with [last_request] at the current
    time and the counter one higher, whatever the view then does with the
    form: reply, fail the job, or raise. *)
Theorem accepted_delivery_is_counted env form w c0 u n :
  truthy (form_From form) = true ->
  RateLimiter.check_limit env (py_str (form_From form)) (fresh w) = Ok false c0 ->
  faults env OpUserQuery = false ->
  faults env OpUserCommit = false ->
  List.find (fun r => bool_decide (Some (phone_number r) = form_From form))
            (users (db w)) = Some u ->
  request_count u = Some n ->
  List.find (fun r => bool_decide (Some (phone_number r) = form_From form))
            (users (db (post_webhook env form w).2))
    = Some (with_request_count (Some (n + 1))
              (with_last_request (Some (now env)) u)).
Proof.
  intros Ht Hcl Hq Hcm Hf Hn.
  destruct (rate_limit_passes env form (webhook env form) (fresh w) c0 u n
              (fresh_clean w) Ht Hcl Hq Hf Hn)
    as (c1 & Hr & Hc & _ & _ & _ & _ & Hus).
  unfold post_webhook. rewrite serve_world. unfold webhook_route. rewrite Hr.
  destruct (webhook_cases env form c1 Hc) as (Hu & _).
  rewrite Hu, Hus, Hcm. simpl in *.
  apply find_replace_user; [|done]. by apply find_replace_user.
Qed.

Lemma accepted_delivery_is_counted_witness :
  List.find (fun r => bool_decide (Some (phone_number r) = Some caller))
            (users (db (post_webhook (faulty [OpSessionQuery] 30) (image "A")
                          provisioned).2))
    = Some (mkUser (Some 1) caller (Some 0) (Some 30) (Some 1)).
Proof.
  apply (accepted_delivery_is_counted (faulty [OpSessionQuery] 30) (image "A")
           provisioned
           (ctx_of (RateLimiter.check_limit (faulty [OpSessionQuery] 30) caller
                      (fresh provisioned)))
           (mkUser (Some 1) caller (Some 0) None (Some 0)) 0);
    vm_compute; reflexivity.
Defined.

(** ** The session table *)

(** X7.  No delivery removes a session or changes the primary key, owner,
    person image or creation time of one; a delivery adds at most one row,
    at the end of the table. *)
Theorem sessions_are_kept env form w :
  let key s := (s_id s, user_id s, person_image s, s_created_at s) in
  exists added,
    (length added <= 1)%nat /\
    map key (sessions (db (post_webhook env form w).2))
      = map key (sessions (db w) ++ added).
Proof.
  cbv zeta.
  destruct (post_webhook_sessions env form w)
    as [->|uid _ ->|uid s _ _ Hl|uid s _ _ ->].
  - exists []. rewrite app_nil_r. split; [simpl; lia|done].
  - eexists [_]. split; [simpl; lia|done].
  - simpl in Hl. rewrite Hl. exists []. rewrite app_nil_r.
    split; [simpl; lia|]. rewrite !map_replace_same; done.
  - eexists [_]. split; [simpl; lia|done].
Qed.

Lemma lookup_replace {A} `{EqDecision A} (a b : A) l i :
  Sql.replace a b l !! i = (fun r => if bool_decide (r = a) then b else r) <$> l !! i.
Proof. unfold Sql.replace. apply list_lookup_fmap. Qed.

(** X8.  A completed session is final: whatever is delivered afterwards,
    the row stays where it is and keeps every column. *)
Theorem completed_sessions_are_final env form w i s :
  sessions (db w) !! i = Some s ->
  completed_at s <> None ->
  sessions (db (post_webhook env form w).2) !! i = Some s.
Proof.
  intros Hi Hc.
  destruct (post_webhook_sessions env form w)
    as [->|uid _ ->|uid a Hf _ Hl|uid a _ _ ->].
  - done.
  - by apply lookup_app_l_Some.
  - simpl in Hl. rewrite Hl.
    apply find_some in Hf as [_ Hact].
    unfold Sql.is_active_of in Hact. apply andb_true_iff in Hact as [_ Hact].
    apply bool_decide_eq_true in Hact.
    rewrite !lookup_replace, Hi. simpl.
    repeat case_bool_decide; subst; simpl in *; done.
  - by apply lookup_app_l_Some.
Qed.

Lemma completed_sessions_are_final_witness :
  let w2 := (post_webhook (working 60) (image "B")
               (post_webhook (working 0) (image "A") provisioned).2).2 in
  sessions (db (post_webhook (working 120) (image "C") w2).2) !! 0%nat
    = Some (mkSession (Some 1) (Some 1) (Some "A") (Some "B")
              (Some "https://tryon.example/static/result.png") (Some 0) (Some 60)).
Proof.
  cbv zeta.
  apply (completed_sessions_are_final (working 120) (image "C")); [reflexivity|done].
Defined.

Lemma max_id_bound {A} (id : A -> option Z) l i :
  In (Some i) (map id l) -> i <= Sql.max_id id l.
Proof.
  induction l as [|r l IH]; simpl; [done|].
  intros [H|H].
  - rewrite H. lia.
  - specialize (IH H). destruct (id r); lia.
Qed.

(** X9.  Primary keys of sessions stay distinct: the key given to a new
    session is above every key in the table, and completing a session keeps
    its key. *)
Theorem session_keys_stay_distinct env form w :
  NoDup (map s_id (sessions (db w))) ->
  NoDup (map s_id (sessions (db (post_webhook env form w).2))).
Proof.
  intros Hnd.
  assert (forall uid m t,
            NoDup (map s_id (sessions (db w) ++
                     [mkSession (Some (1 + Sql.max_id s_id (sessions (db w))))
                                uid m None None t None]))) as Hnew.
  { intros uid m t. rewrite map_app. simpl. apply NoDup_app. split; [done|].
    split; [|apply NoDup_singleton].
    intros x Hx Hx'. apply list_elem_of_singleton in Hx'. subst x.
    apply list_elem_of_In, max_id_bound in Hx. lia. }
  destruct (post_webhook_sessions env form w)
    as [->|uid _ ->|uid s _ _ Hl|uid s _ _ ->].
  - done.
  - apply Hnew.
  - simpl in Hl. rewrite Hl. rewrite !map_replace_same; done.
  - apply Hnew.
Qed.

Lemma session_keys_stay_distinct_witness :
  NoDup (map s_id
           (sessions (db (post_webhook (working 0) (image "A") provisioned).2))).
Proof.
  apply (session_keys_stay_distinct (working 0) (image "A") provisioned).
  simpl. apply NoDup_nil_2.
Defined.

(** ** Whose session, which message *)

(** The view in full, on a clean unit of work: either it commits nothing
    and sends nothing; or it opens a session for the caller's row; or it
    completes the caller's active session and then sends the result, where
    the send may raise. *)
Lemma webhook_detail env form c :
  clean c ->
  let res := webhook env form c in
  let l := sessions (db (world c)) in
  let l' := sessions (db (world (ctx_of res))) in
  let o := outbox (world c) in
  let o' := outbox (world (ctx_of res)) in
  (l' = l /\ o' = o /\
   (forall c', res <> Raise TwilioRestException c') /\
   (forall r c', res = Ok r c' ->
                 r <> mkResponse 200 (Twiml ["Here is your virtual try-on result!"])))
  \/
  (exists user,
     truthy (form_MediaUrl0 form) = true /\
     List.find (fun u => bool_decide (Some (phone_number u) = form_From form))
               (users (db (world c))) = Some user /\
     l' = (l ++ [mkSession (Some (1 + Sql.max_id s_id l)) (u_id user)
                   (form_MediaUrl0 form) None None (Some (now env)) None])%list /\
     o' = o /\
     exists r c',
       res = Ok r c' /\
       (r = mkResponse 200
              (Twiml ["Great! Now please send the image of the garment you want to try on."])
        \/ r = mkResponse 200
                (Twiml ["Starting a new virtual try-on session. Please send the garment image."])))
  \/
  (exists user s,
     truthy (form_MediaUrl0 form) = true /\
     List.find (fun u => bool_decide (Some (phone_number u) = form_From form))
               (users (db (world c))) = Some user /\
     List.find (Sql.is_active_of (u_id user)) l = Some s /\
     truthy (garment_image s) = false /\
     (let s1 := with_garment_image (form_MediaUrl0 form) s in
      let s2 := with_result_image (Some (result_locator env)) s1 in
      let s3 := with_completed_at (Some (now env)) s2 in
      l' = Sql.replace s2 s3 (Sql.replace s1 s2 (Sql.replace s s1 l))) /\
     ((o' = (o ++ [(py_str (form_From form), result_locator env)])%list /\
       exists c', res = Ok (mkResponse 200
                              (Twiml ["Here is your virtual try-on result!"])) c')
      \/ (o' = o /\ exists c', res = Raise TwilioRestException c'))).
Proof.
  intros Hc. unfold clean in Hc.
  remember (webhook env form c) as res eqn:Hres. simpl.
  unfold webhook in Hres.
  destruct (truthy (form_MediaUrl0 form)) eqn:Hm; simpl in Hres.
  2:{ left. subst res. unfold_monad. simpl. repeat split; try done.
      intros ? ? [= <- <-]. done. }
  unfold_monad.
  destruct (faults env OpHandlerUserQuery) eqn:F1; simpl in Hres.
  { left. subst res. simpl. repeat split; done. }
  rewrite Hc in Hres. simpl in Hres.
  destruct (List.find _ (users (db (world c)))) as [user|] eqn:Eu; simpl in Hres.
  2:{ left. subst res. simpl. repeat split; done. }
  destruct (faults env OpSessionQuery) eqn:F2; simpl in Hres.
  { left. subst res. simpl. repeat split; done. }
  rewrite Hc in Hres. simpl in Hres.
  destruct (List.find _ (sessions (db (world c)))) as [s|] eqn:Es; simpl in Hres.
  2:{ destruct (faults env OpSessionCommit) eqn:F3; simpl in Hres; subst res; simpl.
      - left. repeat split; done.
      - right. left. exists user. rewrite Hc. simpl. rewrite ?app_nil_r.
        repeat split; try done. do 2 eexists. split; [done|by left]. }
  destruct (truthy (garment_image s)) eqn:Eg; simpl in Hres.
  { destruct (faults env OpSessionCommit) eqn:F3; simpl in Hres; subst res; simpl.
    - left. repeat split; done.
    - right. left. exists user. rewrite Hc. simpl. rewrite ?app_nil_r.
      repeat split; try done. do 2 eexists. split; [done|by right]. }
  match type of Hres with
  | context [ImageProcessor.process_virtual_tryon env ?p ?g ?c1] =>
      destruct (process_virtual_tryon_returns env p g c1)
        as (o & c2 & Ep & Pu & Pr & Pd & Po & Pres);
      rewrite Ep in Hres
  end.
  simpl in Pu, Pr, Pd, Po.
  destruct Pres as [->|[-> _]].
  { left. simpl in Hres. subst res. simpl. rewrite Pd, Po.
    repeat split; try done. intros ? ? [= <- <-]. done. }
  rewrite locator_truthy in Hres.
  destruct (faults env OpSessionCommit) eqn:F3; simpl in Hres.
  { left. subst res. simpl. rewrite Pd, Po. repeat split; done. }
  rewrite Pu in Hres. simpl in Hres. rewrite Hc in Hres. simpl in Hres.
  right. right. exists user, s.
  destruct (faults env OpSendMedia) eqn:F4; simpl in Hres; subst res; simpl;
    rewrite ?app_nil_r, ?Po; (repeat (split; [done|]));
    [right|left]; (split; [done|]); by eexists.
Qed.

(** The decorator in full: when it does not run the view it answers 400 or
    429 or raises an error of Redis, of the row lookup, or the [TypeError]
    of the unset counter, and leaves tables, disk and outbox alone. *)
Lemma rate_limit_detail env form f c :
  clean c ->
  (let res := rate_limit env form f c in
   (forall r c', res = Ok r c' -> status r = 400 \/ status r = 429) /\
   (forall c', res <> Raise TwilioRestException c') /\
   db (world (ctx_of res)) = db (world c) /\
   outbox (world (ctx_of res)) = outbox (world c))
  \/
  (exists c0 c1 u n,
     rate_limit env form f c = f c1 /\
     RateLimiter.check_limit env (py_str (form_From form)) c = Ok false c0 /\
     List.find (fun r => bool_decide (Some (phone_number r) = form_From form))
               (users (db (world c))) = Some u /\
     request_count u = Some n /\
     clean c1 /\
     outbox (world c1) = outbox (world c) /\
     sessions (db (world c1)) = sessions (db (world c)) /\
     users (db (world c1)) =
       if faults env OpUserCommit then users (db (world c))
       else
         let u1 := with_last_request (Some (now env)) u in
         Sql.replace u1 (with_request_count (Some (n + 1)) u1)
           (Sql.replace u u1 (users (db (world c))))).
Proof.
  intros Hc.
  destruct (truthy (form_From form)) eqn:Ht.
  2:{ left. unfold rate_limit. rewrite Ht. unfold_monad. simpl.
      repeat split; try done. intros ? ? [= <- <-]. by left. }
  pose proof (check_limit_frame env (py_str (form_From form)) c) as Fr.
  destruct (RateLimiter.check_limit env (py_str (form_From form)) c)
    as [limited c0|e c0] eqn:Ecl; simpl in Fr; destruct Fr as (Fu & Fd & Ff & Fo).
  2:{ left.
      assert (e = RedisConnectionError) as ->.
      { revert Ecl. unfold RateLimiter.check_limit. unfold_monad.
        repeat (case_match; simplify_eq/=); congruence. }
      assert (rate_limit env form f c = Raise RedisConnectionError c0) as ->.
      { unfold rate_limit. rewrite Ht. simpl. unfold bind at 1. by rewrite Ecl. }
      simpl. repeat split; done. }
  destruct limited.
  { left.
    assert (exists r, rate_limit env form f c = Ok r c0 /\ status r = 429)
      as (r & -> & Hr).
    { unfold rate_limit. rewrite Ht. simpl. unfold bind at 1. rewrite Ecl.
      unfold_monad. by eexists. }
    simpl. repeat split; try done. intros ? ? [= <- <-]. by right. }
  unfold clean in Hc. pose proof Fu as Fu'. rewrite Hc in Fu'.
  destruct (faults env OpUserQuery) eqn:Hq.
  { left.
    assert (rate_limit env form f c = Raise OperationalError c0) as ->.
    { unfold rate_limit. rewrite Ht. simpl. unfold bind at 1. rewrite Ecl.
      unfold_monad. by rewrite Hq. }
    simpl. repeat split; done. }
  destruct (List.find (fun r => bool_decide (Some (phone_number r) = form_From form))
                      (users (db (world c)))) as [u|] eqn:Hf.
  2:{ left.
      assert (exists c', rate_limit env form f c = Raise TypeError c' /\
                         world c' = world c0) as (c' & -> & Hw).
      { unfold rate_limit. rewrite Ht. simpl. unfold bind at 1. rewrite Ecl.
        unfold_monad. rewrite Hq. simpl. rewrite Fu'. simpl. rewrite Hf. simpl.
        by eexists. }
      simpl. rewrite Hw. repeat split; done. }
  destruct (request_count u) as [n|] eqn:Hn.
  2:{ left.
      assert (exists c', rate_limit env form f c = Raise TypeError c' /\
                         world c' = world c0) as (c' & -> & Hw).
      { unfold rate_limit. rewrite Ht. simpl. unfold bind at 1. rewrite Ecl.
        unfold_monad. rewrite Hq. simpl. rewrite Fu'. simpl. rewrite Hf. simpl.
        rewrite Hn. simpl. by eexists. }
      simpl. rewrite Hw. repeat split; done. }
  right.
  destruct (rate_limit_passes env form f c c0 u n Hc Ht Ecl Hq Hf Hn)
    as (c1 & Hr & Hc1 & _ & _ & Ho & Hs & Hus).
  exists c0, c1, u, n. done.
Qed.

(** Whenever the view answers, the status is 200. *)
Lemma webhook_status env form c r c' :
  webhook env form c = Ok r c' -> status r = 200.
Proof.
  unfold webhook.
  destruct (truthy (form_MediaUrl0 form)); simpl;
    [|unfold_monad; by intros [= <- <-]].
  unfold_monad.
  repeat match goal with
  | |- context [ImageProcessor.process_virtual_tryon ?e ?p ?g ?c1] =>
      destruct (process_virtual_tryon_returns e p g c1) as (? & ? & -> & _)
  | _ => case_match; simplify_eq/=
  end; intros; simplify_eq/=; done.
Qed.

(** One delivery in full. *)
Lemma post_webhook_detail env form w :
  let r := (post_webhook env form w).1 in
  let l := sessions (db w) in
  let l' := sessions (db (post_webhook env form w).2) in
  let o := outbox w in
  let o' := outbox (post_webhook env form w).2 in
  (l' = l /\ o' = o /\
   r <> mkResponse 500 (Unhandled TwilioRestException) /\
   r <> mkResponse 200 (Twiml ["Here is your virtual try-on result!"]))
  \/
  (exists u,
     truthy (form_MediaUrl0 form) = true /\
     List.find (fun u => bool_decide (Some (phone_number u) = form_From form))
               (users (db w)) = Some u /\
     l' = (l ++ [mkSession (Some (1 + Sql.max_id s_id l)) (u_id u)
                   (form_MediaUrl0 form) None None (Some (now env)) None])%list /\
     o' = o /\
     (r = mkResponse 200
            (Twiml ["Great! Now please send the image of the garment you want to try on."])
      \/ r = mkResponse 200
              (Twiml ["Starting a new virtual try-on session. Please send the garment image."])))
  \/
  (exists u s,
     truthy (form_MediaUrl0 form) = true /\
     List.find (fun u => bool_decide (Some (phone_number u) = form_From form))
               (users (db w)) = Some u /\
     List.find (Sql.is_active_of (u_id u)) l = Some s /\
     truthy (garment_image s) = false /\
     (let s1 := with_garment_image (form_MediaUrl0 form) s in
      let s2 := with_result_image (Some (result_locator env)) s1 in
      let s3 := with_completed_at (Some (now env)) s2 in
      l' = Sql.replace s2 s3 (Sql.replace s1 s2 (Sql.replace s s1 l))) /\
     ((o' = (o ++ [(py_str (form_From form), result_locator env)])%list /\
       r = mkResponse 200 (Twiml ["Here is your virtual try-on result!"]))
      \/ (o' = o /\ r = mkResponse 500 (Unhandled TwilioRestException)))).
Proof.
  cbv zeta. unfold post_webhook, serve, webhook_route.
  destruct (rate_limit_detail env form (webhook env form) (fresh w) (fresh_clean w))
    as [(Hst & Hex & Hd & Ho)
       |(c0 & c1 & u & n & Hr & _ & Hf & Hn & Hc & Ho & Hs & Hus)].
  - left. simpl in *.
    destruct (rate_limit env form (webhook env form) (fresh w)) as [r c|e c];
      simpl in *; rewrite Hd, Ho; repeat split; try done.
    + intros ->. by destruct (Hst _ _ eq_refl).
    + intros ->. by destruct (Hst _ _ eq_refl).
    + intros [= ->]. by apply (Hex c).
  - rewrite Hr. simpl in Hf, Ho, Hs.
    assert (exists u', List.find
              (fun u => bool_decide (Some (phone_number u) = form_From form))
              (users (db (world c1))) = Some u' /\ u_id u' = u_id u)
      as (u' & Hf' & Hid).
    { rewrite Hus. destruct (faults env OpUserCommit); [by exists u|].
      eexists. split; [|shelve].
      apply find_replace_user; [|done]. by apply find_replace_user.
      Unshelve. done. }
    destruct (webhook_detail env form c1 Hc)
      as [(Hl & Ho' & Hex & Hnr)
         |[(user & Hm & Hfu & Hl & Ho' & r0 & c' & Ew & Hrep)
          |(user & s & Hm & Hfu & Hfs & Hg & Hl & Hout)]].
    + left. destruct (webhook env form c1) as [r c|e c] eqn:Ew; simpl in *;
        rewrite Hl, Ho', Hs, Ho; repeat split; try done.
      * intros ->. by apply webhook_status in Ew.
      * by apply (Hnr r c).
      * intros [= ->]. by apply (Hex c).
    + right. left. exists u. rewrite Hfu in Hf'. injection Hf' as ->.
      rewrite Hid, Hs, Ho in *.
      rewrite Ew in *. simpl in *. done.
    + right. right. rewrite Hfu in Hf'. injection Hf' as ->.
      exists u, s. rewrite Hid, Hs, Ho in *.
      repeat (split; [done|]).
      split; [by destruct (webhook env form c1)|].
      destruct Hout as [(Ho' & c' & E)|(Ho' & c' & E)]; rewrite E in *; simpl in *.
      * by left.
      * by right.
Qed.

Lemma replace_chain_In (s s1 s2 s3 : Session) l :
  In s l -> In s3 (Sql.replace s2 s3 (Sql.replace s1 s2 (Sql.replace s s1 l))).
Proof.
  intros H. unfold Sql.replace. rewrite !map_map.
  apply in_map_iff. exists s. split; [|done].
  rewrite (bool_decide_eq_true_2 (s = s)) by done.
  rewrite (bool_decide_eq_true_2 (s1 = s1)) by done.
  by rewrite (bool_decide_eq_true_2 (s2 = s2)).
Qed.

Lemma filter_replace_out {A} `{EqDecision A} (P : A -> bool) (a b : A) l :
  P a = false -> P b = false ->
  List.filter P (Sql.replace a b l) = List.filter P l.
Proof.
  intros Ha Hb. induction l as [|r l IH]; [done|]. simpl.
  case_bool_decide as E.
  - subst r. by rewrite Ha, Hb.
  - by rewrite IH.
Qed.

(** X10.  Every stored session has a non-empty person image, and every
    completed one also a non-empty garment image and a result image: a
    table with this property keeps it under any delivery. *)
Theorem stored_sessions_have_their_images env form w :
  let ok s :=
    truthy (person_image s) = true /\
    (completed_at s <> None ->
     truthy (garment_image s) = true /\ result_image s <> None) in
  Forall ok (sessions (db w)) ->
  Forall ok (sessions (db (post_webhook env form w).2)).
Proof.
  cbv zeta. intros Hl.
  destruct (post_webhook_detail env form w)
    as [(-> & _)|[(u & Hm & _ & -> & _)|(u & s & Hm & _ & Hfs & _ & Hl' & _)]].
  - done.
  - apply Forall_app. split; [done|]. constructor; [|constructor].
    simpl. done.
  - simpl in Hl'. rewrite Hl'.
    eapply Forall_pointwise; [|apply replace_chain|done].
    simpl. apply find_some in Hfs as [Hin _].
    rewrite Forall_forall in Hl. apply list_elem_of_In, Hl in Hin as [Hp _].
    done.
Qed.

Lemma stored_sessions_have_their_images_witness :
  Forall (fun s =>
            truthy (person_image s) = true /\
            (completed_at s <> None ->
             truthy (garment_image s) = true /\ result_image s <> None))
         (sessions (db (post_webhook (working 0) (image "A") provisioned).2)).
Proof.
  apply (stored_sessions_have_their_images (working 0) (image "A") provisioned).
  simpl. constructor.
Defined.

(** X11.  A delivery changes only sessions owned by the caller's row: the
    sessions of every other user are the same rows, in the same order,
    before and after. *)
Theorem delivery_spares_other_users_sessions env form w uid :
  (forall u,
      List.find (fun u => bool_decide (Some (phone_number u) = form_From form))
                (users (db w)) = Some u ->
      u_id u <> uid) ->
  List.filter (fun s => bool_decide (user_id s = uid))
              (sessions (db (post_webhook env form w).2))
  = List.filter (fun s => bool_decide (user_id s = uid)) (sessions (db w)).
Proof.
  intros Hother.
  destruct (post_webhook_detail env form w)
    as [(-> & _)|[(u & _ & Hf & -> & _)|(u & s & _ & Hf & Hfs & _ & Hl' & _)]].
  - done.
  - rewrite List.filter_app. simpl.
    rewrite bool_decide_eq_false_2 by (by apply Hother).
    by rewrite app_nil_r.
  - simpl in Hl'. rewrite Hl'.
    apply find_some in Hfs as [_ Hact].
    unfold Sql.is_active_of in Hact. apply andb_true_iff in Hact as [Hu _].
    apply bool_decide_eq_true in Hu.
    specialize (Hother u Hf).
    rewrite !filter_replace_out; try done;
      simpl; apply bool_decide_eq_false_2; congruence.
Qed.

Lemma delivery_spares_other_users_sessions_witness :
  let other := mkSession (Some 1) (Some 2) (Some "P") None None (Some 0) None in
  let w := mkWorld ∅ (mkDB (users (db provisioned)) [other]) ∅ [] in
  List.filter (fun s => bool_decide (user_id s = Some 2))
              (sessions (db (post_webhook (working 5) (image "A") w).2))
  = [other].
Proof.
  cbv zeta.
  rewrite (delivery_spares_other_users_sessions (working 5) (image "A")).
  - reflexivity.
  - intros u [= <-]. done.
Defined.

(** X12.  A delivery sends at most one media message.  When it sends one,
    it goes to the form's sender, carries the fixed result locator, and the
    table by then holds a session completed at this delivery's time with the
    delivered image as garment and that locator as result. *)
Theorem media_message_follows_completion env form w :
  outbox (post_webhook env form w).2 = outbox w
  \/ (outbox (post_webhook env form w).2
        = (outbox w ++ [(py_str (form_From form), result_locator env)])%list /\
      exists s,
        In s (sessions (db (post_webhook env form w).2)) /\
        completed_at s = Some (now env) /\
        garment_image s = form_MediaUrl0 form /\
        result_image s = Some (result_locator env)).
Proof.
  destruct (post_webhook_detail env form w)
    as [(_ & -> & _)|[(u & _ & _ & _ & -> & _)
                     |(u & s & _ & _ & Hfs & _ & Hl' & Hout)]].
  - by left.
  - by left.
  - destruct Hout as [(-> & _)|(-> & _)]; [|by left].
    right. split; [done|]. simpl in Hl'. rewrite Hl'.
    eexists. split; [apply replace_chain_In; by apply find_some in Hfs as [? _]|].
    done.
Qed.

(** X13.  When Twilio's send raises, the delivery ends in a 500 and nothing
    is added to the outbox, but the completion is already committed: the
    table holds a session completed at this delivery's time, with the
    delivered image as garment and the locator as result. *)
Theorem send_failure_after_commit env form w :
  (post_webhook env form w).1 = mkResponse 500 (Unhandled TwilioRestException) ->
  outbox (post_webhook env form w).2 = outbox w /\
  exists s,
    In s (sessions (db (post_webhook env form w).2)) /\
    completed_at s = Some (now env) /\
    garment_image s = form_MediaUrl0 form /\
    result_image s = Some (result_locator env).
Proof.
  intros Hr.
  destruct (post_webhook_detail env form w)
    as [(_ & _ & Hne & _)|[(u & _ & _ & _ & _ & Hrep)
                          |(u & s & _ & _ & Hfs & _ & Hl' & Hout)]].
  - done.
  - rewrite Hr in Hrep. by destruct Hrep.
  - destruct Hout as [(_ & Hr')|(-> & _)]; [by rewrite Hr' in Hr|].
    split; [done|]. simpl in Hl'. rewrite Hl'.
    eexists. split; [apply replace_chain_In; by apply find_some in Hfs as [? _]|].
    done.
Qed.

Lemma send_failure_after_commit_witness :
  let w1 := (post_webhook (working 0) (image "A") provisioned).2 in
  let w2 := (post_webhook (faulty [OpSendMedia] 60) (image "B") w1).2 in
  outbox w2 = [] /\
  exists s, In s (sessions (db w2)) /\ completed_at s = Some 60 /\
            garment_image s = Some "B" /\
            result_image s = Some "https://tryon.example/static/result.png".
Proof.
  cbv zeta.
  apply (send_failure_after_commit (faulty [OpSendMedia] 60) (image "B")
           (post_webhook (working 0) (image "A") provisioned).2).
  reflexivity.
Defined.

(** X14.  Whenever a delivery is answered with the failure reply, no
    session change was committed and nothing was sent: the session table
    and the outbox are as before the delivery. *)
Theorem failure_reply_commits_nothing env form w :
  (post_webhook env form w).1 =
    mkResponse 200 (Twiml ["Sorry, something went wrong with the try-on process."]) ->
  sessions (db (post_webhook env form w).2) = sessions (db w) /\
  outbox (post_webhook env form w).2 = outbox w.
Proof.
  intros Hr.
  destruct (post_webhook_detail env form w)
    as [(Hl & Ho & _)|[(u & _ & _ & _ & _ & Hrep)
                      |(u & s & _ & _ & _ & _ & _ & Hout)]].
  - done.
  - rewrite Hr in Hrep. by destruct Hrep.
  - rewrite Hr in Hout. by destruct Hout as [(_ & ?)|(_ & ?)].
Qed.

Lemma failure_reply_commits_nothing_witness :
  let w1 := (post_webhook (working 0) (image "A") provisioned).2 in
  sessions (db (post_webhook (prediction_down 60) (image "B") w1).2)
    = sessions (db w1) /\
  outbox (post_webhook (prediction_down 60) (image "B") w1).2 = outbox w1.
Proof.
  cbv zeta.
  apply (failure_reply_commits_nothing (prediction_down 60) (image "B")
           (post_webhook (working 0) (image "A") provisioned).2).
  reflexivity.
Defined.

(** ** One reply per delivery *)

Lemma webhook_one_message env form c r c' :
  webhook env form c = Ok r c' -> exists m, body r = Twiml [m].
Proof.
  unfold webhook.
  destruct (truthy (form_MediaUrl0 form)); simpl;
    [|unfold_monad; intros [= <- <-]; by eexists].
  unfold_monad.
  repeat match goal with
  | |- context [ImageProcessor.process_virtual_tryon ?e ?p ?g ?c1] =>
      destruct (process_virtual_tryon_returns e p g c1) as (? & ? & -> & _)
  | _ => case_match; simplify_eq/=
  end; intros; simplify_eq/=; by eexists.
Qed.

Lemma rate_limit_answers env form f c r c' (P : Response -> Prop) :
  (forall c1 r1 c2, f c1 = Ok r1 c2 -> P r1) ->
  (forall m, P (mkResponse 400 (Twiml [m]))) ->
  (forall m, P (mkResponse 429 (Twiml [m]))) ->
  rate_limit env form f c = Ok r c' -> P r.
Proof.
  intros Hf H400 H429. unfold rate_limit.
  destruct (truthy (form_From form)); simpl;
    [|unfold_monad; intros [= <- <-]; apply H400].
  unfold bind at 1.
  destruct (RateLimiter.check_limit env (py_str (form_From form)) c)
    as [[] c0|e c0]; simpl; [unfold_monad; intros [= <- <-]; apply H429| |done].
  unfold_monad.
  repeat (case_match; simplify_eq/=); try done; apply Hf.
Qed.

(** X15.  Every delivery gets exactly one answer: a TwiML document with
    exactly one message and status 200, 400 or 429, or else the 500 of an
    uncaught exception. *)
Theorem one_reply_per_delivery env form w :
  (exists m, body (post_webhook env form w).1 = Twiml [m] /\
             (status (post_webhook env form w).1 = 200 \/
              status (post_webhook env form w).1 = 400 \/
              status (post_webhook env form w).1 = 429))
  \/ (exists e, (post_webhook env form w).1 = mkResponse 500 (Unhandled e)).
Proof.
  unfold post_webhook, serve, webhook_route.
  destruct (rate_limit env form (webhook env form) (fresh w)) as [r c|e c] eqn:E;
    simpl; [left|right; by eexists].
  revert E.
  apply (rate_limit_answers env form (webhook env form) (fresh w) r c
           (fun r => exists m, body r = Twiml [m] /\
                               (status r = 200 \/ status r = 400 \/ status r = 429))).
  - intros c1 r1 c2 E1.
    destruct (webhook_one_message _ _ _ _ _ E1) as (m & Hm).
    exists m. split; [done|]. left. by eapply webhook_status.
  - intros m. exists m. simpl. auto.
  - intros m. exists m. simpl. auto.
Qed.

(** ** What the limits view shows of a window *)

Lemma ttl_of_entry now k n d (r : gmap string Redis.entry) :
  r !! k = Some (Redis.Entry n (Some d)) -> now < d ->
  Redis.ttl now k r = d - now.
Proof.
  intros E Hlt. unfold Redis.ttl, Redis.lookup_live, Redis.live. rewrite E. simpl.
  by rewrite (proj2 (Z.ltb_lt now d) Hlt).
Qed.

(** X16.  After a first check at time [T] opened a window and further
    checks fell inside it, the limits view asked inside the window reports
    as used exactly the number of checks let through, as remaining what is
    left of 100 (never negative), and as time to reset the seconds left
    until [T + 86400]. *)
Theorem limits_view_reports_the_window phone_number first rest env c :
  Forall redis_up (first :: rest) ->
  Redis.get (now first) (RateLimiter.key phone_number) (redis (world c)) = None ->
  Forall (fun e => now e < now first + 86400) rest ->
  faults env OpRedisGet = false ->
  faults env OpRedisTtl = false ->
  faults env OpUserQuery = false ->
  now env < now first + 86400 ->
  let N := allowed (run_checks phone_number (first :: rest) c).1 in
  let w := world (run_checks phone_number (first :: rest) c).2 in
  exists j,
    (get_limits env phone_number w).1 = mkResponse 200 (Json j) /\
    daily_requests_used j = N /\
    daily_requests_remaining j = 100 - N /\
    0 <= daily_requests_remaining j /\
    reset_in_seconds j = now first + 86400 - now env.
Proof.
  intros Hup H Hin Fg Ft Fq Hnow.
  apply Forall_cons in Hup as [Hup1 Hup].
  simpl. rewrite (check_limit_fresh first phone_number Hup1 c H).
  pose proof (run_checks_window phone_number (now first + 86400) rest
    (set_redis (<[RateLimiter.key phone_number :=
                    Redis.Entry 1 (Some (now first + 86400))]>
                  (redis (world c))) c) 1 Hup Hin) as W.
  destruct (run_checks phone_number rest _) as [outcomes c'].
  destruct W as [W1 W2]; [simpl; apply lookup_insert_eq | lia |].
  simpl. rewrite allowed_cons. simpl.
  unfold get_limits, serve, check_limits. unfold_monad.
  rewrite Fg, Ft, Fq. simpl.
  rewrite (get_of_entry _ _ _ _ _ W1 Hnow), (ttl_of_entry _ _ _ _ _ W1 Hnow).
  eexists. split; [reflexivity|]. simpl.
  unfold Config.MAX_DAILY_REQUESTS.
  rewrite (proj2 (Z.ltb_lt 0 (now first + 86400 - now env))) by lia.
  repeat split; lia.
Qed.

Lemma limits_view_reports_the_window_witness :
  let c := (run_checks caller [quiet 0; quiet 10; quiet 20] (fresh provisioned)).2 in
  exists j,
    (get_limits (quiet 400) caller (world c)).1 = mkResponse 200 (Json j) /\
    daily_requests_used j = 3 /\
    daily_requests_remaining j = 97 /\
    0 <= daily_requests_remaining j /\
    reset_in_seconds j = 86000.
Proof.
  apply (limits_view_reports_the_window caller (quiet 0) [quiet 10; quiet 20]
           (quiet 400) (fresh provisioned)).
  - repeat constructor.
  - reflexivity.
  - repeat constructor.
  - reflexivity.
  - reflexivity.
  - reflexivity.
  - reflexivity.
Defined.

(** ** A check that straddles the deadline *)





(** ** A job that fails *)

(** X18.  When the media fetch fails for the person image or for the
    garment image, or the prediction service raises, the job returns no
    locator and changes no file other than its two download targets: in
    particular [static/result.png] still holds whatever an earlier job left
    there. *)
Theorem failed_job_touches_only_downloads env person_url garment_url c :
  (forall url, person_url = Some url -> fetch_media env url = None) \/
  (forall url, garment_url = Some url -> fetch_media env url = None) \/
  (forall person garment, gradio_predict env person garment = GradioError) ->
  exists c',
    ImageProcessor.process_virtual_tryon env person_url garment_url c = Ok None c' /\
    forall path,
      path <> "person_image.jpg" -> path <> "garment_image.jpg" ->
      files (world c') !! path = files (world c) !! path.
Proof.
  intros H.
  unfold ImageProcessor.process_virtual_tryon, ImageProcessor.download_from_twilio.
  unfold_monad.
  destruct person_url as [pu|], garment_url as [gu|]; simpl;
    try destruct (fetch_media env pu) as [pc|] eqn:Ep; simpl;
    try destruct (fetch_media env gu) as [gc|] eqn:Eg; simpl;
    try (eexists; split; [reflexivity|];
         intros path Hp Hg; simpl; rewrite ?lookup_insert_ne; done).
  rewrite lookup_insert_eq.
  rewrite lookup_insert_ne by done. rewrite lookup_insert_eq.
  destruct H as [H|[H|H]].
  - specialize (H _ eq_refl). congruence.
  - specialize (H _ eq_refl). congruence.
  - rewrite H. eexists. split; [reflexivity|].
    intros path Hp Hg. simpl. rewrite !lookup_insert_ne; done.
Qed.

Lemma failed_job_touches_only_downloads_witness :
  let w := mkWorld ∅ (db provisioned) {[ "static/result.png" := "earlier" ]} [] in
  exists c',
    ImageProcessor.process_virtual_tryon (prediction_down 0) (Some "A") (Some "B")
      (fresh w) = Ok None c' /\
    files (world c') !! "static/result.png" = Some "earlier".
Proof.
  cbv zeta.
  destruct (failed_job_touches_only_downloads (prediction_down 0) (Some "A") (Some "B")
              (fresh (mkWorld ∅ (db provisioned)
                        {[ "static/result.png" := "earlier" ]} [])))
    as (c' & E & Hf).
  - right. right. reflexivity.
  - exists c'. split; [exact E|]. rewrite Hf; [reflexivity|done|done].
Defined.

(** ** The message and media identifiers in a media URL *)

Lemma py_split_nonempty sep s : py_split sep s <> [].
Proof.
  destruct s as [|ch rest]; simpl; [done|].
  destruct (Ascii.eqb ch sep); [done|]. by destruct (py_split sep rest).
Qed.

Lemma py_split_length sep s :
  length (py_split sep s) = S (count_char sep s).
Proof.
  induction s as [|ch rest IH]; simpl; [done|].
  destruct (Ascii.eqb ch sep); simpl; [by rewrite IH|].
  pose proof (py_split_nonempty sep rest).
  destruct (py_split sep rest); [done|]. simpl in *. done.
Qed.

Lemma py_split_whole sep s : count_char sep s = 0%nat -> py_split sep s = [s].
Proof.
  induction s as [|ch rest IH]; simpl; [done|].
  destruct (Ascii.eqb ch sep); simpl; [done|].
  intros H. by rewrite (IH H).
Qed.

Lemma py_split_app sep a b :
  py_split sep (a +:+ String sep b) = (py_split sep a ++ py_split sep b)%list.
Proof.
  induction a as [|ch rest IH]; simpl.
  - by rewrite Ascii.eqb_refl.
  - destruct (Ascii.eqb ch sep); simpl; [by rewrite IH|].
    rewrite IH. pose proof (py_split_nonempty sep rest).
    by destruct (py_split sep rest).
Qed.

Lemma from_end_app {A} (l : list A) (tail : list A) k x :
  tail !! (length tail - k)%nat = Some x -> (k <= length tail)%nat ->
  from_end (l ++ tail) k = Some x.
Proof.
  intros Hx Hk. unfold from_end. rewrite length_app.
  rewrite (proj2 (Nat.ltb_ge _ _)) by lia.
  rewrite lookup_app_r by lia.
  replace (length l + length tail - k - length l)%nat with (length tail - k)%nat by lia.
  done.
Qed.

(** X19.  The two identifiers [download_from_twilio] takes from the media
    URL are the third piece from the end and the last piece of the URL cut
    at every slash.  For a URL ending in [/<message>/<any>/<media>] they are
    the message and media identifiers; a URL with fewer than two slashes has
    no third piece from the end (the [IndexError] the function turns into
    [None]), and with two or more slashes the extraction always succeeds. *)
Theorem twilio_sids_of_media_url :
  (forall base message middle media,
      count_char "/"%char message = 0%nat ->
      count_char "/"%char middle = 0%nat ->
      count_char "/"%char media = 0%nat ->
      twilio_sids (base +:+ String "/"%char
                     (message +:+ String "/"%char
                        (middle +:+ String "/"%char media)))
        = Some (message, media))
  /\ (forall url, twilio_sids url = None <-> (count_char "/"%char url < 2)%nat).
Proof.
  split.
  - intros base message middle media Hm Hd Ha. unfold twilio_sids.
    rewrite !py_split_app.
    rewrite (py_split_whole _ _ Hm), (py_split_whole _ _ Hd), (py_split_whole _ _ Ha).
    simpl.
    rewrite (from_end_app _ [message; middle; media] 3 message) by (simpl; done || lia).
    rewrite (from_end_app _ [message; middle; media] 1 media) by (simpl; done || lia).
    done.
  - intros url. unfold twilio_sids, from_end.
    pose proof (py_split_length "/"%char url) as Hlen.
    set (parts := py_split "/"%char url) in *.
    destruct (Nat.ltb_spec (length parts) 3) as [Hshort|Hlong].
    + split; [lia|done].
    + destruct (Nat.ltb_spec (length parts) 1) as [?|_]; [lia|].
      destruct (lookup_lt_is_Some_2 parts (length parts - 3)) as [x ->]; [lia|].
      destruct (lookup_lt_is_Some_2 parts (length parts - 1)) as [y ->]; [lia|].
      split; [done|lia].
Qed.

(** On a Twilio media URL. *)
Example twilio_sids_example :
  twilio_sids
    "https://api.twilio.com/2010-04-01/Accounts/AC1/Messages/MM2/Media/ME3"
  = Some ("MM2", "ME3").
Proof. reflexivity. Qed.

(** ** The two-image flow for a caller whose row exists *)

(** What the decorator leaves of the caller's row still answers to the
    caller's number and has the same primary key. *)
Lemma caller_row_after_decorator env form u n (l : list User) :
  List.find (fun r => bool_decide (Some (phone_number r) = form_From form)) l
    = Some u ->
  exists u',
    List.find (fun r => bool_decide (Some (phone_number r) = form_From form))
      (if faults env OpUserCommit then l
       else
         let u1 := with_last_request (Some (now env)) u in
         Sql.replace u1 (with_request_count (Some (n + 1)) u1)
           (Sql.replace u u1 l)) = Some u' /\
    u_id u' = u_id u.
Proof.
  intros Hf. destruct (faults env OpUserCommit); [by exists u|].
  eexists. split.
  - apply find_replace_user; [|done]. by apply find_replace_user.
  - done.
Qed.

(** X20.  First image.  When the limiter lets the caller through, the
    caller's row exists with a counter, the caller has no active session,
    the form carries a media URL and none of the lookups or the commit of
    the view raises, the delivery is answered with the request for the
    garment image and exactly one row is added: a session of the caller with
    the delivered URL as person image, created now, nothing else set. *)
Theorem first_image_opens_session env form w c0 u n :
  truthy (form_From form) = true ->
  truthy (form_MediaUrl0 form) = true ->
  RateLimiter.check_limit env (py_str (form_From form)) (fresh w) = Ok false c0 ->
  faults env OpUserQuery = false ->
  faults env OpHandlerUserQuery = false ->
  faults env OpSessionQuery = false ->
  faults env OpSessionCommit = false ->
  List.find (fun r => bool_decide (Some (phone_number r) = form_From form))
            (users (db w)) = Some u ->
  request_count u = Some n ->
  List.find (Sql.is_active_of (u_id u)) (sessions (db w)) = None ->
  (post_webhook env form w).1 =
    mkResponse 200
      (Twiml ["Great! Now please send the image of the garment you want to try on."])
  /\ sessions (db (post_webhook env form w).2) =
       (sessions (db w) ++
          [mkSession (Some (1 + Sql.max_id s_id (sessions (db w)))) (u_id u)
             (form_MediaUrl0 form) None None (Some (now env)) None])%list.
Proof.
  intros Ht Hm Hcl Fq F1 F2 F3 Hf Hn Hs.
  destruct (rate_limit_passes env form (webhook env form) (fresh w) c0 u n
              (fresh_clean w) Ht Hcl Fq Hf Hn)
    as (c1 & Hr & Hc & _ & _ & _ & Hse & Hus).
  destruct (caller_row_after_decorator env form u n _ Hf) as (u' & Hf' & Hid).
  simpl in Hse.
  assert (List.find
            (fun r => bool_decide (Some (phone_number r) = form_From form))
            (users (db (world c1))) = Some u') as Hf1
    by (rewrite Hus; exact Hf').
  assert (exists c2,
    webhook env form c1 =
      Ok (mkResponse 200
            (Twiml ["Great! Now please send the image of the garment you want to try on."]))
         c2 /\
    sessions (db (world c2)) =
      (sessions (db w) ++
         [mkSession (Some (1 + Sql.max_id s_id (sessions (db w)))) (u_id u)
            (form_MediaUrl0 form) None None (Some (now env)) None])%list)
    as (c2 & Ew & Hl).
  { unfold clean in Hc. unfold webhook. rewrite Hm. simpl. unfold_monad.
    rewrite F1. simpl. rewrite Hc. simpl. rewrite Hf1. simpl.
    rewrite F2. simpl. rewrite Hc. simpl. rewrite Hid, Hse, Hs. simpl.
    rewrite F3. simpl. eexists. split; [reflexivity|].
    unfold Sql.flush. simpl. rewrite Hc. simpl. by rewrite Hse. }
  unfold post_webhook, serve, webhook_route. rewrite Hr, Ew. done.
Qed.

Lemma first_image_opens_session_witness :
  (post_webhook (working 0) (image "A") provisioned).1 =
    mkResponse 200
      (Twiml ["Great! Now please send the image of the garment you want to try on."])
  /\ sessions (db (post_webhook (working 0) (image "A") provisioned).2) =
       [mkSession (Some 1) (Some 1) (Some "A") None None (Some 0) None].
Proof.
  apply (first_image_opens_session (working 0) (image "A") provisioned
           (ctx_of (RateLimiter.check_limit (working 0) caller (fresh provisioned)))
           (mkUser (Some 1) caller (Some 0) None (Some 0)) 0);
    vm_compute; reflexivity.
Defined.

(** X21.  Second image.  When the limiter lets the caller through, the
    caller's row exists with a counter, the caller's active session has no
    garment image yet, the form carries a media URL, the job on (person
    image, delivered URL) yields a locator, and neither the lookups, the
    commit nor the send of the view raise, then the delivery is answered
    with the result reply, the active session is completed now with the
    delivered URL as garment image and the locator as result, and one media
    message with that locator is sent to the caller. *)
Theorem second_image_completes_session env form w c0 u n s :
  truthy (form_From form) = true ->
  truthy (form_MediaUrl0 form) = true ->
  RateLimiter.check_limit env (py_str (form_From form)) (fresh w) = Ok false c0 ->
  faults env OpUserQuery = false ->
  faults env OpHandlerUserQuery = false ->
  faults env OpSessionQuery = false ->
  faults env OpSessionCommit = false ->
  faults env OpSendMedia = false ->
  List.find (fun r => bool_decide (Some (phone_number r) = form_From form))
            (users (db w)) = Some u ->
  request_count u = Some n ->
  List.find (Sql.is_active_of (u_id u)) (sessions (db w)) = Some s ->
  truthy (garment_image s) = false ->
  (forall c, exists url c',
      ImageProcessor.process_virtual_tryon env (person_image s)
        (form_MediaUrl0 form) c = Ok (Some url) c') ->
  let s1 := with_garment_image (form_MediaUrl0 form) s in
  let s2 := with_result_image (Some (result_locator env)) s1 in
  let s3 := with_completed_at (Some (now env)) s2 in
  (post_webhook env form w).1 =
    mkResponse 200 (Twiml ["Here is your virtual try-on result!"])
  /\ sessions (db (post_webhook env form w).2) =
       Sql.replace s2 s3 (Sql.replace s1 s2 (Sql.replace s s1 (sessions (db w))))
  /\ In s3 (sessions (db (post_webhook env form w).2))
  /\ outbox (post_webhook env form w).2 =
       (outbox w ++ [(py_str (form_From form), result_locator env)])%list.
Proof.
  intros Ht Hm Hcl Fq F1 F2 F3 F4 Hf Hn Hs Hg Hjob. cbv zeta.
  destruct (rate_limit_passes env form (webhook env form) (fresh w) c0 u n
              (fresh_clean w) Ht Hcl Fq Hf Hn)
    as (c1 & Hr & Hc & _ & _ & Ho & Hse & Hus).
  destruct (caller_row_after_decorator env form u n _ Hf) as (u' & Hf' & Hid).
  simpl in Hse, Ho.
  assert (List.find
            (fun r => bool_decide (Some (phone_number r) = form_From form))
            (users (db (world c1))) = Some u') as Hf1
    by (rewrite Hus; exact Hf').
  assert (exists c2,
    webhook env form c1 =
      Ok (mkResponse 200 (Twiml ["Here is your virtual try-on result!"])) c2 /\
    sessions (db (world c2)) =
      Sql.replace
        (with_result_image (Some (result_locator env))
           (with_garment_image (form_MediaUrl0 form) s))
        (with_completed_at (Some (now env))
           (with_result_image (Some (result_locator env))
              (with_garment_image (form_MediaUrl0 form) s)))
        (Sql.replace (with_garment_image (form_MediaUrl0 form) s)
           (with_result_image (Some (result_locator env))
              (with_garment_image (form_MediaUrl0 form) s))
           (Sql.replace s (with_garment_image (form_MediaUrl0 form) s)
              (sessions (db w)))) /\
    outbox (world c2) =
      (outbox w ++ [(py_str (form_From form), result_locator env)])%list)
    as (c2 & Ew & Hl & Hob).
  { unfold clean in Hc. unfold webhook. rewrite Hm. simpl. unfold_monad.
    rewrite F1. simpl. rewrite Hc. simpl. rewrite Hf1. simpl.
    rewrite F2. simpl. rewrite Hc. simpl. rewrite Hid, Hse, Hs. simpl.
    rewrite Hg. simpl.
    match goal with
    | |- context [ImageProcessor.process_virtual_tryon env ?p ?g ?cx] =>
        destruct (process_virtual_tryon_returns env p g cx)
          as (o & c2 & Ep & Pu & Pr & Pd & Po & Pres);
        destruct (Hjob cx) as (url & cy & Ejob);
        simpl in Ejob; rewrite Ep in Ejob; injection Ejob as -> <-;
        rewrite Ep
    end.
    destruct Pres as [?|[[= ->] _]]; [done|].
    rewrite locator_truthy. rewrite F3. simpl. rewrite F4. simpl.
    eexists. split; [reflexivity|]. simpl in *.
    rewrite Pu, Po. simpl. rewrite Hc. simpl. rewrite Hse, Ho, ?app_nil_r. done. }
  unfold post_webhook, serve, webhook_route. rewrite Hr, Ew. simpl.
  rewrite Hl, Hob. repeat split; try done.
  apply replace_chain_In. by apply find_some in Hs as [? _].
Qed.

(** With every collaborator working, the job yields the locator. *)
Lemma working_job_succeeds t person_url garment_url c :
  exists url c',
    ImageProcessor.process_virtual_tryon (working t) (Some person_url)
      (Some garment_url) c = Ok (Some url) c'.
Proof.
  unfold ImageProcessor.process_virtual_tryon, ImageProcessor.download_from_twilio.
  unfold_monad. simpl.
  rewrite lookup_insert_ne by done. rewrite !lookup_insert_eq. simpl.
  by do 2 eexists.
Qed.

Lemma second_image_completes_session_witness :
  let w1 := (post_webhook (working 0) (image "A") provisioned).2 in
  (post_webhook (working 60) (image "B") w1).1 =
    mkResponse 200 (Twiml ["Here is your virtual try-on result!"])
  /\ In (mkSession (Some 1) (Some 1) (Some "A") (Some "B")
           (Some "https://tryon.example/static/result.png") (Some 0) (Some 60))
        (sessions (db (post_webhook (working 60) (image "B") w1).2))
  /\ outbox (post_webhook (working 60) (image "B") w1).2 =
       [(caller, "https://tryon.example/static/result.png")].
Proof.
  cbv zeta.
  destruct (second_image_completes_session (working 60) (image "B")
              (post_webhook (working 0) (image "A") provisioned).2
              (ctx_of (RateLimiter.check_limit (working 60) caller
                         (fresh (post_webhook (working 0) (image "A") provisioned).2)))
              (mkUser (Some 1) caller (Some 0) (Some 0) (Some 1)) 1
              (mkSession (Some 1) (Some 1) (Some "A") None None (Some 0) None))
    as (Hr & _ & Hin & Ho);
    try (vm_compute; reflexivity).
  - intros c. apply working_job_succeeds.
  - split; [exact Hr|]. split; [exact Hin|exact Ho].
Defined.
